(** * habitica-mcp-server: the tool registry, the dispatcher and its handlers

    A shallow embedding of [src/index.js] and [src/i18n.js].

    The program is a thin adapter: a static table of tool descriptors, a
    [switch] that routes a tool name to one handler, and one handler per tool
    that issues a single HTTP request and formats its response as text.
    The embedding keeps that shape:

    - JavaScript values are a small tree type [JsVal]; the coercions the
      program relies on ([ToBoolean], [ToString], member access,
      [JSON.stringify] with an indent of two) are functions on it;
    - the HTTP client is an oracle from requests to settled promises, and an
      [async] function is a computation that reads the oracle, logs the
      requests it issued and either returns or throws;
    - module start-up is the list of effects it performs, in order.

    The repository also carries a bilingual copy of [index.js] with the same
    registry names, [switch] and handlers, whose user-facing texts are
    Chinese; the embedding follows [src/index.js]. *)

From stdpp Require Import base strings list gmap pretty.
From Stdlib Require Import ZArith Ascii.

#[local] Set Warnings "-register-all".

Local Open Scope Z_scope.

(* ================================================================== *)
(** ** JavaScript values *)

(** A finite Number, as the program can observe one: through [ToBoolean],
    [ToString], [JSON.stringify] and a comparison with zero.  [NInt z] is a
    safe integer (at most [2^53 - 1] in absolute value), whose text is its
    decimal expansion; both zeros are [NInt 0].  [NText s] is any other finite
    Number, given by the text [ToString] answers for it ([0.1], [1.5],
    [-2.25], [1e+21]); such a Number is never zero. *)
Inductive Number : Type :=
| NInt (z : Z)
| NText (text : string).
Coercion NInt : Z >-> Number.

Definition numberToString (n : Number) : string :=
  match n with
  | NInt z => pretty z
  | NText s => s
  end.

Definition numberIsZero (n : Number) : bool :=
  match n with
  | NInt z => z =? 0
  | NText _ => false
  end.

Definition numberIsPositive (n : Number) : bool :=
  match n with
  | NInt z => 0 <? z
  | NText s => negb (String.prefix "-" s)
  end.

(** A value as the program can observe it.  An object is the list of its own
    enumerable properties in the engine's enumeration order (the order
    [JSON.stringify] follows); a key occurs at most once in a real object, and
    lookup takes the first occurrence.  Strings are byte strings holding
    UTF-8. *)
Inductive JsVal : Type :=
| JUndefined
| JNull
| JBool (b : bool)
| JNum (n : Number)
| JStr (s : string)
| JArr (elems : list JsVal)
| JObj (props : list (string * JsVal)).

(** [ToBoolean]: the test performed by [if], [?:], [!] and [||]. *)
Definition truthy (v : JsVal) : bool :=
  match v with
  | JUndefined | JNull => false
  | JBool b => b
  | JNum n => negb (numberIsZero n)
  | JStr s => negb (String.eqb s "")
  | JArr _ | JObj _ => true
  end.

(** [a || b]. *)
Definition js_or (a b : JsVal) : JsVal := if truthy a then a else b.

(** [v === undefined || v === null]. *)
Definition nullish (v : JsVal) : bool :=
  match v with
  | JUndefined | JNull => true
  | _ => false
  end.

(** [ToString], the conversion applied by a template literal and by [+=] on a
    string.  An array is its elements joined by commas, with [undefined] and
    [null] elements printed as nothing; a plain object prints as
    [[object Object]].  On an object carrying its own [toString] the
    conversion throws instead, and [toStr] is not followed: it is the text of
    the values that [printable], below, accepts. *)
Fixpoint toStr (v : JsVal) : string :=
  match v with
  | JUndefined => "undefined"
  | JNull => "null"
  | JBool true => "true"
  | JBool false => "false"
  | JNum n => numberToString n
  | JStr s => s
  | JArr elems =>
      String.concat ","
        (map (fun e => if nullish e then "" else toStr e) elems)
  | JObj _ => "[object Object]"
  end.

(** Own property lookup in a property list. *)
Fixpoint ownProp (props : list (string * JsVal)) (k : string) : option JsVal :=
  match props with
  | [] => None
  | (k', v) :: rest => if String.eqb k k' then Some v else ownProp rest k
  end.

(** The values on which [toStr] is what [ToString] answers.  The conversion
    of an object calls its [toString]; an object holding an own property of
    that name (which, in data parsed from JSON, is never a function) has no
    conversion, and a template literal or [+=] applied to it throws
    [TypeError: Cannot convert object to primitive value].  The same holds
    for an array with such an object among its elements.  An integer has its
    decimal expansion as text only within the safe range.  Statements about
    the text of a value are made for printable values. *)
Fixpoint printable (v : JsVal) : bool :=
  match v with
  | JNum (NInt z) => Z.abs z <=? 9007199254740991
  | JArr elems => forallb (fun e => nullish e || printable e) elems
  | JObj props =>
      match ownProp props "toString" with
      | Some _ => false
      | None => true
      end
  | _ => true
  end.

(** Number of UTF-16 code units of a UTF-8 byte string: one per code point,
    and one more for each code point outside the basic plane (a four-byte
    sequence).  This is what [.length] answers on a string. *)
Fixpoint utf16_length (s : string) : nat :=
  match s with
  | EmptyString => 0%nat
  | String c rest =>
      let b := nat_of_ascii c in
      ((if (b <? 128)%nat then 1
        else if (b <? 192)%nat then 0
        else if (b <? 240)%nat then 1
        else 2) + utf16_length rest)%nat
  end.

(** What was thrown.  [McpError] comes from the MCP SDK; the program builds
    one with [new McpError(code, message)] and tests for one with
    [instanceof].  The record keeps the two constructor arguments: [message]
    is the text the error is built with, which the SDK's constructor stores
    in the [message] property of the error behind a prefix of its own,
    [MCP error <code>: ]. *)
Inductive ErrorCode : Type :=
| MethodNotFound
| InternalError
| OtherCode (n : Z).

Record McpError : Type := mkMcpError { code : ErrorCode; message : string }.

Inductive Thrown : Type :=
| ThrownMcp (e : McpError)      (* [error instanceof McpError] holds *)
| ThrownJs (v : JsVal).         (* any other thrown value, as its properties *)

(** How an expression or a call completes.  [Unmodelled] marks the one
    coercion the embedding does not interpret: [ToNumber] of a string or of an
    array, which parses a numeric literal. *)
Inductive Outcome (A : Type) : Type :=
| Return (a : A)
| Throw (e : Thrown)
| Unmodelled.
Arguments Return {A} a.
Arguments Throw {A} e.
Arguments Unmodelled {A}.

(** The [TypeError] Node raises when a property of [undefined] or [null] is
    read; as a thrown value it is an object with a [message]. *)
Definition typeError (msg : string) : Thrown :=
  ThrownJs (JObj [("message", JStr msg)]).

Definition cannotRead (base : JsVal) (k : string) : Thrown :=
  typeError ("Cannot read properties of " +:+ toStr base +:+
             " (reading '" +:+ k +:+ "')").

(** Member access [v.k] on a non-nullish value, for the identifier keys the
    program uses.  Arrays and strings answer [length]; primitives have no
    other property of those names. *)
Definition member (v : JsVal) (k : string) : JsVal :=
  match v with
  | JObj props => default JUndefined (ownProp props k)
  | JArr elems =>
      if String.eqb k "length" then JNum (Z.of_nat (List.length elems)) else JUndefined
  | JStr s =>
      if String.eqb k "length" then JNum (Z.of_nat (utf16_length s)) else JUndefined
  | _ => JUndefined
  end.

(** Member access [v.k]: reading a property of [undefined] or [null] throws. *)
Definition getProp (v : JsVal) (k : string) : Outcome JsVal :=
  if nullish v then Throw (cannotRead v k) else Return (member v k).

(** Optional member access [v?.k]. *)
Definition optProp (v : JsVal) (k : string) : JsVal :=
  if nullish v then JUndefined else member v k.

(** [v > 0]: [ToNumber] of the left operand compared with zero.  [undefined]
    and plain objects convert to [NaN], for which every comparison is false
    (an object carrying its own [toString] has no conversion; the comparison
    is used on the [length] of arrays). *)
Definition gtZero (v : JsVal) : option bool :=
  match v with
  | JUndefined => Some false
  | JNull => Some false
  | JBool b => Some b
  | JNum n => Some (numberIsPositive n)
  | JObj _ => Some false
  | JStr _ | JArr _ => None
  end.

(* ================================================================== *)
(** ** [JSON.stringify(value, null, 2)] *)

Definition dquote : string := String "034"%char "".
Definition newline : string := String "010"%char "".
Definition gap : string := "  ".

Definition hexDigit (n : nat) : string :=
  String.substring n 1 "0123456789abcdef".

(** One character inside a JSON string literal. *)
Definition quoteChar (c : ascii) : string :=
  let n := nat_of_ascii c in
  if (n =? 8)%nat then "\b"
  else if (n =? 9)%nat then "\t"
  else if (n =? 10)%nat then "\n"
  else if (n =? 12)%nat then "\f"
  else if (n =? 13)%nat then "\r"
  else if (n =? 34)%nat then "\" +:+ dquote
  else if (n =? 92)%nat then "\\"
  else if (n <? 32)%nat then "\u00" +:+ hexDigit (n / 16) +:+ hexDigit (n mod 16)
  else String c "".

Fixpoint quoteChars (s : string) : string :=
  match s with
  | EmptyString => ""
  | String c rest => quoteChar c +:+ quoteChars rest
  end.

(** [QuoteJSONString]. *)
Definition quoteJSON (s : string) : string := dquote +:+ quoteChars s +:+ dquote.

(** [SerializeJSONProperty] with a gap of two spaces; [indent] is the current
    indentation.  [None] stands for [undefined]: the value has no JSON text.
    An [undefined] array element is written [null]; a property whose value is
    [undefined] is left out. *)
Fixpoint serialize (indent : string) (v : JsVal) : option string :=
  match v with
  | JUndefined => None
  | JNull => Some "null"
  | JBool true => Some "true"
  | JBool false => Some "false"
  | JNum n => Some (numberToString n)
  | JStr s => Some (quoteJSON s)
  | JArr elems =>
      let stepback := indent in
      let indent := indent +:+ gap in
      let partial := map (fun e => default "null" (serialize indent e)) elems in
      Some (match partial with
            | [] => "[]"
            | _ => "[" +:+ newline +:+ indent +:+
                   String.concat ("," +:+ newline +:+ indent) partial +:+
                   newline +:+ stepback +:+ "]"
            end)
  | JObj props =>
      let stepback := indent in
      let indent := indent +:+ gap in
      let partial :=
        omap (fun kv => match kv with
                        | (k, x) =>
                            match serialize indent x with
                            | Some s => Some (quoteJSON k +:+ ": " +:+ s)
                            | None => None
                            end
                        end) props in
      Some (match partial with
            | [] => "{}"
            | _ => "{" +:+ newline +:+ indent +:+
                   String.concat ("," +:+ newline +:+ indent) partial +:+
                   newline +:+ stepback +:+ "}"
            end)
  end.

(** [JSON.stringify(v, null, 2)] as a value: a string, or [undefined]. *)
Definition JSON_stringify (v : JsVal) : JsVal :=
  match serialize "" v with
  | Some s => JStr s
  | None => JUndefined
  end.

(* ================================================================== *)
(** ** [src/i18n.js] *)

Module I18n.

Definition DEFAULT_LANG : string := "en".

(** The module's one variable, [currentLang]. *)
Record State : Type := mkState { currentLang : string }.

Definition init : State := mkState DEFAULT_LANG.

Definition lowerAscii (c : ascii) : ascii :=
  let n := nat_of_ascii c in
  if ((65 <=? n) && (n <=? 90))%nat then ascii_of_nat (n + 32) else c.

(** [String.prototype.toLowerCase] on the ASCII letters; other bytes are
    kept, so this is the method on ASCII text only (language tags are
    ASCII). *)
Fixpoint toLowerCase (s : string) : string :=
  match s with
  | EmptyString => EmptyString
  | String c rest => String (lowerAscii c) (toLowerCase rest)
  end.

(** [setLanguage(lang)]: [currentLang = (lang || '').toLowerCase()].
    [None] is [undefined]. *)
Definition setLanguage (lang : option string) (st : State) : State :=
  mkState (toLowerCase (default "" lang)).

Definition getLanguage (st : State) : string := currentLang st.

(** [t(en)]: the English text, whatever the language. *)
Definition t (en : string) : string := en.

End I18n.

Import I18n.

(* ================================================================== *)
(** ** The tool registry *)

Record ToolDescriptor : Type := mkTool {
  name : string;
  description : string;
  inputSchema : JsVal
}.

(** The [tools] array, in source order.  Every description goes through
    [t]; the schemas are the object literals of the source. *)
Definition tools : list ToolDescriptor :=
  [ {| name := "get_user_profile";
     description :=
       t "Get user profile";
     inputSchema :=
       JObj [("type", JStr "object"); ("properties", JObj [])] |};
    {| name := "get_tasks";
     description :=
       t "Get tasks list";
     inputSchema :=
       JObj
         [("type", JStr "object");
          ("properties", JObj
              [("type", JObj
                   [("type", JStr "string");
                    ("enum", JArr
                        [JStr "habits";
                         JStr "dailys";
                         JStr "todos";
                         JStr "rewards"]);
                    ("description", JStr (t "Task type"))])])] |};
    {| name := "create_task";
     description :=
       t "Create new task. For daily tasks, use frequency/everyX/repeat/startDate to set custom schedules";
     inputSchema :=
       JObj
         [("type", JStr "object");
          ("properties", JObj
              [("type", JObj
                   [("type", JStr "string");
                    ("enum", JArr
                        [JStr "habit";
                         JStr "daily";
                         JStr "todo";
                         JStr "reward"]);
                    ("description", JStr (t "Task type"))]);
               ("text", JObj
                   [("type", JStr "string");
                    ("description", JStr (t "Task title"))]);
               ("notes", JObj
                   [("type", JStr "string");
                    ("description", JStr (t "Task notes"))]);
               ("difficulty", JObj
                   [("type", JStr "number");
                    ("enum", JArr
                        [JNum (NText "0.1");
                         JNum 1;
                         JNum (NText "1.5");
                         JNum 2]);
                    ("description",
                      JStr (t "Difficulty (0.1=easy, 1=medium, 1.5=hard, 2=very hard)"))]);
               ("priority", JObj
                   [("type", JStr "number");
                    ("enum", JArr
                        [JNum (NText "0.1");
                         JNum 1;
                         JNum (NText "1.5");
                         JNum 2]);
                    ("description",
                      JStr (t "Priority (0.1=low, 1=med, 1.5=high, 2=urgent)"))]);
               ("frequency", JObj
                   [("type", JStr "string");
                    ("enum", JArr
                        [JStr "daily";
                         JStr "weekly";
                         JStr "monthly";
                         JStr "yearly"]);
                    ("description",
                      JStr (t ("Repeat frequency for daily tasks. " +:+ dquote +:+ "daily" +:+ dquote +:+ "=every X days, " +:+ dquote +:+ "weekly" +:+ dquote +:+ "=specific days of week, " +:+ dquote +:+ "monthly" +:+ dquote +:+ "=by day/week of month, " +:+ dquote +:+ "yearly" +:+ dquote +:+ "=annually")))]);
               ("everyX", JObj
                   [("type", JStr "integer");
                    ("minimum", JNum 1);
                    ("description",
                      JStr (t ("Repeat interval. For frequency=" +:+ dquote +:+ "daily" +:+ dquote +:+ ": every X days. " +:+ dquote +:+ "weekly" +:+ dquote +:+ ": every X weeks. " +:+ dquote +:+ "monthly" +:+ dquote +:+ ": every X months. Default is 1")))]);
               ("repeat", JObj
                   [("type", JStr "object");
                    ("properties", JObj
                        [("m", JObj
                             [("type", JStr "boolean");
                              ("description", JStr (t "Monday"))]);
                         ("t", JObj
                             [("type", JStr "boolean");
                              ("description", JStr (t "Tuesday"))]);
                         ("w", JObj
                             [("type", JStr "boolean");
                              ("description", JStr (t "Wednesday"))]);
                         ("th", JObj
                             [("type", JStr "boolean");
                              ("description", JStr (t "Thursday"))]);
                         ("f", JObj
                             [("type", JStr "boolean");
                              ("description", JStr (t "Friday"))]);
                         ("s", JObj
                             [("type", JStr "boolean");
                              ("description", JStr (t "Saturday"))]);
                         ("su", JObj
                             [("type", JStr "boolean");
                              ("description", JStr (t "Sunday"))])]);
                    ("description",
                      JStr (t ("Days of week when task is active (for frequency=" +:+ dquote +:+ "weekly" +:+ dquote +:+ "). Example: {" +:+ dquote +:+ "m" +:+ dquote +:+ ":true," +:+ dquote +:+ "w" +:+ dquote +:+ ":true," +:+ dquote +:+ "f" +:+ dquote +:+ ":true} for Mon/Wed/Fri")))]);
               ("daysOfMonth", JObj
                   [("type", JStr "array");
                    ("items", JObj
                        [("type", JStr "integer");
                         ("minimum", JNum 1);
                         ("maximum", JNum 31)]);
                    ("description",
                      JStr (t ("Days of month when task is due (for frequency=" +:+ dquote +:+ "monthly" +:+ dquote +:+ "). Example: [1,15] for 1st and 15th")))]);
               ("weeksOfMonth", JObj
                   [("type", JStr "array");
                    ("items", JObj
                        [("type", JStr "integer");
                         ("minimum", JNum 0);
                         ("maximum", JNum 4)]);
                    ("description",
                      JStr (t "Weeks of month (0=first, 1=second, 2=third, 3=fourth, 4=last) combined with repeat days. Example: [0] with repeat.m=true for 1st Monday"))]);
               ("startDate", JObj
                   [("type", JStr "string");
                    ("description",
                      JStr (t ("Start date in ISO 8601 format (e.g., " +:+ dquote +:+ "2024-01-15" +:+ dquote +:+ "). Task becomes active on this date")))]);
               ("checklist", JObj
                   [("type", JStr "array");
                    ("items", JObj
                        [("type", JStr "object");
                         ("properties", JObj
                             [("text", JObj
                                  [("type", JStr "string");
                                   ("description",
                                     JStr (t "Checklist item text"))]);
                              ("completed", JObj
                                  [("type", JStr "boolean");
                                   ("description",
                                     JStr (t "Completed status"));
                                   ("default", JBool false)])]);
                         ("required", JArr [JStr "text"])]);
                    ("description", JStr (t "Checklist items"))])]);
          ("required", JArr [JStr "type"; JStr "text"])] |};
    {| name := "score_task";
     description :=
       t "Score task / habit";
     inputSchema :=
       JObj
         [("type", JStr "object");
          ("properties", JObj
              [("taskId", JObj
                   [("type", JStr "string");
                    ("description", JStr (t "Task ID"))]);
               ("direction", JObj
                   [("type", JStr "string");
                    ("enum", JArr [JStr "up"; JStr "down"]);
                    ("description",
                      JStr (t "Direction (up=positive, down=negative, habits only)"))])]);
          ("required", JArr [JStr "taskId"])] |};
    {| name := "update_task";
     description :=
       t "Update task properties including schedule. For daily tasks, use frequency/everyX/repeat/startDate to modify repeat schedule";
     inputSchema :=
       JObj
         [("type", JStr "object");
          ("properties", JObj
              [("taskId", JObj
                   [("type", JStr "string");
                    ("description", JStr (t "Task ID"))]);
               ("text", JObj
                   [("type", JStr "string");
                    ("description", JStr (t "Task title"))]);
               ("notes", JObj
                   [("type", JStr "string");
                    ("description", JStr (t "Task notes"))]);
               ("completed", JObj
                   [("type", JStr "boolean");
                    ("description", JStr (t "Completed flag"))]);
               ("frequency", JObj
                   [("type", JStr "string");
                    ("enum", JArr
                        [JStr "daily";
                         JStr "weekly";
                         JStr "monthly";
                         JStr "yearly"]);
                    ("description",
                      JStr (t ("Repeat frequency for daily tasks. " +:+ dquote +:+ "daily" +:+ dquote +:+ "=every X days, " +:+ dquote +:+ "weekly" +:+ dquote +:+ "=specific days of week, " +:+ dquote +:+ "monthly" +:+ dquote +:+ "=by day/week of month, " +:+ dquote +:+ "yearly" +:+ dquote +:+ "=annually")))]);
               ("everyX", JObj
                   [("type", JStr "integer");
                    ("minimum", JNum 1);
                    ("description",
                      JStr (t ("Repeat interval. For frequency=" +:+ dquote +:+ "daily" +:+ dquote +:+ ": every X days. " +:+ dquote +:+ "weekly" +:+ dquote +:+ ": every X weeks. " +:+ dquote +:+ "monthly" +:+ dquote +:+ ": every X months")))]);
               ("repeat", JObj
                   [("type", JStr "object");
                    ("properties", JObj
                        [("m", JObj
                             [("type", JStr "boolean");
                              ("description", JStr (t "Monday"))]);
                         ("t", JObj
                             [("type", JStr "boolean");
                              ("description", JStr (t "Tuesday"))]);
                         ("w", JObj
                             [("type", JStr "boolean");
                              ("description", JStr (t "Wednesday"))]);
                         ("th", JObj
                             [("type", JStr "boolean");
                              ("description", JStr (t "Thursday"))]);
                         ("f", JObj
                             [("type", JStr "boolean");
                              ("description", JStr (t "Friday"))]);
                         ("s", JObj
                             [("type", JStr "boolean");
                              ("description", JStr (t "Saturday"))]);
                         ("su", JObj
                             [("type", JStr "boolean");
                              ("description", JStr (t "Sunday"))])]);
                    ("description",
                      JStr (t ("Days of week when task is active (for frequency=" +:+ dquote +:+ "weekly" +:+ dquote +:+ "). Example: {" +:+ dquote +:+ "m" +:+ dquote +:+ ":true," +:+ dquote +:+ "w" +:+ dquote +:+ ":true," +:+ dquote +:+ "f" +:+ dquote +:+ ":true} for Mon/Wed/Fri")))]);
               ("daysOfMonth", JObj
                   [("type", JStr "array");
                    ("items", JObj
                        [("type", JStr "integer");
                         ("minimum", JNum 1);
                         ("maximum", JNum 31)]);
                    ("description",
                      JStr (t ("Days of month when task is due (for frequency=" +:+ dquote +:+ "monthly" +:+ dquote +:+ "). Example: [1,15] for 1st and 15th")))]);
               ("weeksOfMonth", JObj
                   [("type", JStr "array");
                    ("items", JObj
                        [("type", JStr "integer");
                         ("minimum", JNum 0);
                         ("maximum", JNum 4)]);
                    ("description",
                      JStr (t "Weeks of month (0=first, 1=second, 2=third, 3=fourth, 4=last) combined with repeat days. Example: [0] with repeat.m=true for 1st Monday"))]);
               ("startDate", JObj
                   [("type", JStr "string");
                    ("description",
                      JStr (t ("Start date in ISO 8601 format (e.g., " +:+ dquote +:+ "2024-01-15" +:+ dquote +:+ "). Task becomes active on this date")))])]);
          ("required", JArr [JStr "taskId"])] |};
    {| name := "delete_task";
     description :=
       t "Delete task";
     inputSchema :=
       JObj
         [("type", JStr "object");
          ("properties", JObj
              [("taskId", JObj
                   [("type", JStr "string");
                    ("description", JStr (t "Task ID"))])]);
          ("required", JArr [JStr "taskId"])] |};
    {| name := "get_stats";
     description :=
       t "Get user stats";
     inputSchema :=
       JObj [("type", JStr "object"); ("properties", JObj [])] |};
    {| name := "buy_reward";
     description :=
       t "Buy reward";
     inputSchema :=
       JObj
         [("type", JStr "object");
          ("properties", JObj
              [("key", JObj
                   [("type", JStr "string");
                    ("description", JStr (t "Reward key or ID"))])]);
          ("required", JArr [JStr "key"])] |};
    {| name := "get_inventory";
     description :=
       t "Get inventory";
     inputSchema :=
       JObj [("type", JStr "object"); ("properties", JObj [])] |};
    {| name := "cast_spell";
     description :=
       t "Cast spell";
     inputSchema :=
       JObj
         [("type", JStr "object");
          ("properties", JObj
              [("spellId", JObj
                   [("type", JStr "string");
                    ("description", JStr (t "Spell ID"))]);
               ("targetId", JObj
                   [("type", JStr "string");
                    ("description", JStr (t "Target ID (optional)"))])]);
          ("required", JArr [JStr "spellId"])] |};
    {| name := "get_tags";
     description :=
       t "Get tags list";
     inputSchema :=
       JObj [("type", JStr "object"); ("properties", JObj [])] |};
    {| name := "create_tag";
     description :=
       t "Create tag";
     inputSchema :=
       JObj
         [("type", JStr "object");
          ("properties", JObj
              [("name", JObj
                   [("type", JStr "string");
                    ("description", JStr (t "Tag name"))])]);
          ("required", JArr [JStr "name"])] |};
    {| name := "get_pets";
     description :=
       t "Get pets list";
     inputSchema :=
       JObj [("type", JStr "object"); ("properties", JObj [])] |};
    {| name := "feed_pet";
     description :=
       t "Feed pet";
     inputSchema :=
       JObj
         [("type", JStr "object");
          ("properties", JObj
              [("pet", JObj
                   [("type", JStr "string");
                    ("description", JStr (t "Pet key"))]);
               ("food", JObj
                   [("type", JStr "string");
                    ("description", JStr (t "Food key"))])]);
          ("required", JArr [JStr "pet"; JStr "food"])] |};
    {| name := "hatch_pet";
     description :=
       t "Hatch pet";
     inputSchema :=
       JObj
         [("type", JStr "object");
          ("properties", JObj
              [("egg", JObj
                   [("type", JStr "string");
                    ("description", JStr (t "Egg key"))]);
               ("hatchingPotion", JObj
                   [("type", JStr "string");
                    ("description", JStr (t "Hatching potion key"))])]);
          ("required", JArr [JStr "egg"; JStr "hatchingPotion"])] |};
    {| name := "get_mounts";
     description :=
       t "Get mounts list";
     inputSchema :=
       JObj [("type", JStr "object"); ("properties", JObj [])] |};
    {| name := "equip_item";
     description :=
       t "Equip item";
     inputSchema :=
       JObj
         [("type", JStr "object");
          ("properties", JObj
              [("type", JObj
                   [("type", JStr "string");
                    ("enum", JArr
                        [JStr "mount";
                         JStr "pet";
                         JStr "costume";
                         JStr "equipped"]);
                    ("description", JStr (t "Equipment type"))]);
               ("key", JObj
                   [("type", JStr "string");
                    ("description", JStr (t "Item key"))])]);
          ("required", JArr [JStr "type"; JStr "key"])] |};
    {| name := "get_notifications";
     description :=
       t "Get notifications list";
     inputSchema :=
       JObj [("type", JStr "object"); ("properties", JObj [])] |};
    {| name := "read_notification";
     description :=
       t "Mark notification as read";
     inputSchema :=
       JObj
         [("type", JStr "object");
          ("properties", JObj
              [("notificationId", JObj
                   [("type", JStr "string");
                    ("description", JStr (t "Notification ID"))])]);
          ("required", JArr [JStr "notificationId"])] |};
    {| name := "get_shop";
     description :=
       t "Get shop items";
     inputSchema :=
       JObj
         [("type", JStr "object");
          ("properties", JObj
              [("shopType", JObj
                   [("type", JStr "string");
                    ("enum", JArr
                        [JStr "market";
                         JStr "questShop";
                         JStr "timeTravelersShop";
                         JStr "seasonalShop"]);
                    ("description", JStr (t "Shop type"))])])] |};
    {| name := "buy_item";
     description :=
       t "Buy shop item";
     inputSchema :=
       JObj
         [("type", JStr "object");
          ("properties", JObj
              [("itemKey", JObj
                   [("type", JStr "string");
                    ("description", JStr (t "Item key"))]);
               ("quantity", JObj
                   [("type", JStr "number");
                    ("description", JStr (t "Purchase quantity"));
                    ("default", JNum 1)])]);
          ("required", JArr [JStr "itemKey"])] |};
    {| name := "add_checklist_item";
     description :=
       t "Add checklist item to task";
     inputSchema :=
       JObj
         [("type", JStr "object");
          ("properties", JObj
              [("taskId", JObj
                   [("type", JStr "string");
                    ("description", JStr (t "Task ID"))]);
               ("text", JObj
                   [("type", JStr "string");
                    ("description", JStr (t "Checklist item text"))])]);
          ("required", JArr [JStr "taskId"; JStr "text"])] |};
    {| name := "update_checklist_item";
     description :=
       t "Update checklist item";
     inputSchema :=
       JObj
         [("type", JStr "object");
          ("properties", JObj
              [("taskId", JObj
                   [("type", JStr "string");
                    ("description", JStr (t "Task ID"))]);
               ("itemId", JObj
                   [("type", JStr "string");
                    ("description", JStr (t "Checklist item ID"))]);
               ("text", JObj
                   [("type", JStr "string");
                    ("description", JStr (t "Checklist item text"))]);
               ("completed", JObj
                   [("type", JStr "boolean");
                    ("description", JStr (t "Completed status"))])]);
          ("required", JArr [JStr "taskId"; JStr "itemId"])] |};
    {| name := "delete_checklist_item";
     description :=
       t "Delete checklist item";
     inputSchema :=
       JObj
         [("type", JStr "object");
          ("properties", JObj
              [("taskId", JObj
                   [("type", JStr "string");
                    ("description", JStr (t "Task ID"))]);
               ("itemId", JObj
                   [("type", JStr "string");
                    ("description", JStr (t "Checklist item ID"))])]);
          ("required", JArr [JStr "taskId"; JStr "itemId"])] |};
    {| name := "get_task_checklist";
     description :=
       t "Get task checklist items";
     inputSchema :=
       JObj
         [("type", JStr "object");
          ("properties", JObj
              [("taskId", JObj
                   [("type", JStr "string");
                    ("description", JStr (t "Task ID"))])]);
          ("required", JArr [JStr "taskId"])] |};
    {| name := "score_checklist_item";
     description :=
       t "Score checklist item (mark complete/incomplete)";
     inputSchema :=
       JObj
         [("type", JStr "object");
          ("properties", JObj
              [("taskId", JObj
                   [("type", JStr "string");
                    ("description", JStr (t "Task ID"))]);
               ("itemId", JObj
                   [("type", JStr "string");
                    ("description", JStr (t "Checklist item ID"))])]);
          ("required", JArr [JStr "taskId"; JStr "itemId"])] |} ].

(** The names of the registry, in display order. *)
Definition toolNames : list string := map name tools.

(* ================================================================== *)
(** ** The HTTP client and [async] functions *)

Inductive Method : Type := GET | POST | PUT | DELETE.

(** One call on [habiticaClient]: the verb, the path given to it (relative to
    the client's base URL) and the request body, when one is passed. *)
Record Request : Type := mkRequest {
  method : Method;
  url : string;
  payload : option JsVal
}.

(** A settled promise.  An axios response is an object whose [data] property
    holds the parsed body; a rejection carries whatever was thrown. *)
Inductive Settled : Type :=
| Resolved (response : JsVal)
| Rejected (reason : Thrown).

(** The remote service as seen through the client. *)
Definition Client : Type := Request -> Settled.

(** An [async] function body: given the client it yields the requests it
    issued, oldest first, and how it completed. *)
Definition Async (A : Type) : Type := Client -> list Request * Outcome A.

#[export] Instance Async_ret : MRet Async :=
  fun A a _ => ([], Return a).

#[export] Instance Async_bind : MBind Async :=
  fun A B k m client =>
    match m client with
    | (log, Return a) =>
        match k a client with
        | (log', o) => (log ++ log', o)
        end
    | (log, Throw e) => (log, Throw e)
    | (log, Unmodelled) => (log, Unmodelled)
    end.

(** An expression evaluated inside an [async] body. *)
Definition lift {A : Type} (o : Outcome A) : Async A := fun _ => ([], o).

Definition throw {A : Type} (e : Thrown) : Async A := lift (Throw e).

(** [await habiticaClient.verb(url, data)]. *)
Definition await (r : Request) : Async JsVal :=
  fun client =>
    ([r], match client r with
          | Resolved response => Return response
          | Rejected reason => Throw reason
          end).

(** [try { body } catch (error) { handler }]. *)
Definition tryCatch {A : Type} (body : Async A) (handler : Thrown -> Async A)
  : Async A :=
  fun client =>
    match body client with
    | (log, Throw e) =>
        match handler e client with
        | (log', o) => (log ++ log', o)
        end
    | r => r
    end.

Module habiticaClient.
Definition get (path : string) : Async JsVal := await (mkRequest GET path None).
Definition post (path : string) (data : option JsVal) : Async JsVal :=
  await (mkRequest POST path data).
Definition put (path : string) (data : option JsVal) : Async JsVal :=
  await (mkRequest PUT path data).
Definition delete (path : string) : Async JsVal :=
  await (mkRequest DELETE path None).
End habiticaClient.

(** [v.k] inside an [async] body. *)
Definition dot (v : JsVal) (k : string) : Async JsVal := lift (getProp v k).

(** A default parameter [x = d]: the default applies to [undefined] only. *)
Definition orDefault (x d : JsVal) : JsVal :=
  match x with
  | JUndefined => d
  | _ => x
  end.

(* ================================================================== *)
(** ** Tool results *)

Record ContentBlock : Type := mkBlock { type : string; text : JsVal }.

Record ToolCallResult : Type := mkResult { content : list ContentBlock }.

(** [{ type: 'text', text: s }] for a string built by a template. *)
Definition textBlock (s : string) : ContentBlock := mkBlock "text" (JStr s).

(** [{ type: 'text', text: JSON.stringify(v, null, 2) }]. *)
Definition jsonBlock (v : JsVal) : ContentBlock := mkBlock "text" (JSON_stringify v).

(* ================================================================== *)
(** ** Tool implementation functions *)

(** A property read twice in one statement of the source ([if (result.exp)
    ... ${result.exp}]) is read once here: reads have no effect. *)

Definition getUserProfile : Async ToolCallResult :=
  response ← habiticaClient.get "/user";
  data ← dot response "data";
  user ← dot data "data";
  mret (mkResult [jsonBlock user]).

Definition getTasks (type : JsVal) : Async ToolCallResult :=
  let endpoint :=
    if truthy type then "/tasks/user?type=" +:+ toStr type else "/tasks/user" in
  response ← habiticaClient.get endpoint;
  data ← dot response "data";
  mret (mkResult [jsonBlock data]).

Definition createTask (taskData : JsVal) : Async ToolCallResult :=
  response ← habiticaClient.post "/tasks/user" (Some taskData);
  data ← dot response "data";
  task ← dot data "data";
  text ← dot task "text";
  id ← dot task "id";
  mret (mkResult [textBlock ("Successfully created task: " +:+ toStr text +:+
                             " (ID: " +:+ toStr id +:+ ")")]).

Definition scoreTask (taskId direction : JsVal) : Async ToolCallResult :=
  let direction := orDefault direction (JStr "up") in
  response ← habiticaClient.post
               ("/tasks/" +:+ toStr taskId +:+ "/score/" +:+ toStr direction) None;
  data ← dot response "data";
  result ← dot data "data";
  let message := "Task completed! " in
  exp ← dot result "exp";
  let message :=
    if truthy exp then message +:+ "Gained " +:+ toStr exp +:+ " XP " else message in
  gp ← dot result "gp";
  let message :=
    if truthy gp then message +:+ "Gained " +:+ toStr gp +:+ " gold " else message in
  lvl ← dot result "lvl";
  let message :=
    if truthy lvl then message +:+ "Leveled up to " +:+ toStr lvl +:+ "! " else message in
  mret (mkResult [textBlock message]).

Definition updateTask (taskId updates : JsVal) : Async ToolCallResult :=
  response ← habiticaClient.put ("/tasks/" +:+ toStr taskId) (Some updates);
  data ← dot response "data";
  task ← dot data "data";
  text ← dot task "text";
  mret (mkResult [textBlock ("Successfully updated task: " +:+ toStr text)]).

Definition deleteTask (taskId : JsVal) : Async ToolCallResult :=
  _ ← habiticaClient.delete ("/tasks/" +:+ toStr taskId);
  mret (mkResult [textBlock ("Successfully deleted task (ID: " +:+ toStr taskId +:+ ")")]).

Definition getStats : Async ToolCallResult :=
  response ← habiticaClient.get "/user";
  data ← dot response "data";
  user ← dot data "data";
  stats ← dot user "stats";
  mret (mkResult [jsonBlock stats]).

Definition buyReward (key : JsVal) : Async ToolCallResult :=
  response ← habiticaClient.post ("/user/buy/" +:+ toStr key) None;
  data ← dot response "data";
  result ← dot data "data";
  gp ← dot result "gp";
  mret (mkResult [textBlock ("Successfully bought reward! Remaining gold: " +:+ toStr gp)]).

Definition getInventory : Async ToolCallResult :=
  response ← habiticaClient.get "/user";
  data ← dot response "data";
  user ← dot data "data";
  items ← dot user "items";
  mret (mkResult [jsonBlock items]).

Definition castSpell (spellId targetId : JsVal) : Async ToolCallResult :=
  let endpoint :=
    if truthy targetId
    then "/user/class/cast/" +:+ toStr spellId +:+ "?targetId=" +:+ toStr targetId
    else "/user/class/cast/" +:+ toStr spellId in
  _ ← habiticaClient.post endpoint None;
  mret (mkResult [textBlock ("Successfully cast spell: " +:+ toStr spellId)]).

Definition getTags : Async ToolCallResult :=
  response ← habiticaClient.get "/tags";
  data ← dot response "data";
  mret (mkResult [jsonBlock data]).

Definition createTag (name : JsVal) : Async ToolCallResult :=
  response ← habiticaClient.post "/tags" (Some (JObj [("name", name)]));
  data ← dot response "data";
  tag ← dot data "data";
  tagName ← dot tag "name";
  id ← dot tag "id";
  mret (mkResult [textBlock ("Successfully created tag: " +:+ toStr tagName +:+
                             " (ID: " +:+ toStr id +:+ ")")]).

Definition getPets : Async ToolCallResult :=
  response ← habiticaClient.get "/user";
  data ← dot response "data";
  user ← dot data "data";
  items ← dot user "items";
  pets ← dot items "pets";
  mret (mkResult [jsonBlock pets]).

Definition feedPet (pet food : JsVal) : Async ToolCallResult :=
  response ← habiticaClient.post
               ("/user/feed/" +:+ toStr pet +:+ "/" +:+ toStr food) None;
  data ← dot response "data";
  result ← dot data "data";
  let message := "Successfully fed pet " +:+ toStr pet +:+ "! " in
  msg ← dot result "message";
  let message := if truthy msg then message +:+ toStr msg else message in
  mret (mkResult [textBlock message]).

Definition hatchPet (egg hatchingPotion : JsVal) : Async ToolCallResult :=
  response ← habiticaClient.post
               ("/user/hatch/" +:+ toStr egg +:+ "/" +:+ toStr hatchingPotion) None;
  data ← dot response "data";
  _ ← dot data "data";
  mret (mkResult [textBlock ("Successfully hatched pet! Got " +:+ toStr egg +:+
                             "-" +:+ toStr hatchingPotion)]).

Definition getMounts : Async ToolCallResult :=
  response ← habiticaClient.get "/user";
  data ← dot response "data";
  user ← dot data "data";
  items ← dot user "items";
  mounts ← dot items "mounts";
  mret (mkResult [jsonBlock mounts]).

Definition equipItem (type key : JsVal) : Async ToolCallResult :=
  _ ← habiticaClient.post
        ("/user/equip/" +:+ toStr type +:+ "/" +:+ toStr key) None;
  mret (mkResult [textBlock ("Successfully equipped " +:+ toStr type +:+ ": " +:+
                             toStr key)]).

Definition getNotifications : Async ToolCallResult :=
  response ← habiticaClient.get "/notifications";
  data ← dot response "data";
  mret (mkResult [jsonBlock data]).

Definition readNotification (notificationId : JsVal) : Async ToolCallResult :=
  _ ← habiticaClient.post
        ("/notifications/" +:+ toStr notificationId +:+ "/read") None;
  mret (mkResult [textBlock ("Successfully marked notification as read (ID: " +:+
                             toStr notificationId +:+ ")")]).

Definition getShop (shopType : JsVal) : Async ToolCallResult :=
  let shopType := orDefault shopType (JStr "market") in
  response ← habiticaClient.get ("/shops/" +:+ toStr shopType);
  data ← dot response "data";
  mret (mkResult [jsonBlock data]).

Definition buyItem (itemKey quantity : JsVal) : Async ToolCallResult :=
  let quantity := orDefault quantity (JNum 1) in
  response ← habiticaClient.post ("/user/buy/" +:+ toStr itemKey)
               (Some (JObj [("quantity", quantity)]));
  data ← dot response "data";
  result ← dot data "data";
  gp ← dot result "gp";
  mret (mkResult [textBlock ("Successfully bought " +:+ toStr itemKey +:+ " x" +:+
                             toStr quantity +:+ "! Remaining gold: " +:+ toStr gp)]).

(** The arrow function given to [checklist.map]:
    [item => `${item.completed ? '✓' : '○'} ${item.text} (ID: ${item.id})`].
    The first read, [item.completed], throws when the item is [undefined] or
    [null]. *)
Definition checklistLine (item : JsVal) : Outcome string :=
  if nullish item then Throw (cannotRead item "completed")
  else Return ((if truthy (member item "completed") then "✓" else "○") +:+ " " +:+
               toStr (member item "text") +:+ " (ID: " +:+
               toStr (member item "id") +:+ ")").

(** [items.map(f)], stopping at the first element on which [f] throws. *)
Fixpoint mapOutcome {A B : Type} (f : A -> Outcome B) (items : list A)
  : Outcome (list B) :=
  match items with
  | [] => Return []
  | x :: rest =>
      match f x with
      | Return y =>
          match mapOutcome f rest with
          | Return ys => Return (y :: ys)
          | Throw e => Throw e
          | Unmodelled => Unmodelled
          end
      | Throw e => Throw e
      | Unmodelled => Unmodelled
      end
  end.

(** [checklist.map(item => ...).join('\n')]: only an array has a [map]. *)
Definition checklistLines (checklist : JsVal) : Outcome string :=
  match checklist with
  | JArr items =>
      match mapOutcome checklistLine items with
      | Return lines => Return (String.concat newline lines)
      | Throw e => Throw e
      | Unmodelled => Unmodelled
      end
  | _ => Throw (typeError "checklist.map is not a function")
  end.

Definition getTaskChecklist (taskId : JsVal) : Async ToolCallResult :=
  response ← habiticaClient.get ("/tasks/" +:+ toStr taskId);
  data ← dot response "data";
  task ← dot data "data";
  own ← dot task "checklist";
  let checklist := js_or own (JArr []) in
  title ← dot task "text";
  count ← dot checklist "length";
  let header :=
    t ("Task: " +:+ toStr title +:+ newline +:+
       "Checklist items (" +:+ toStr count +:+ "):") in
  body ← match gtZero count with
         | Some true => lift (checklistLines checklist)
         | Some false => mret (t "No checklist items found")
         | None => lift Unmodelled
         end;
  mret (mkResult [textBlock header; textBlock body]).

Definition addChecklistItem (taskId text : JsVal) : Async ToolCallResult :=
  response ← habiticaClient.post ("/tasks/" +:+ toStr taskId +:+ "/checklist")
               (Some (JObj [("text", text)]));
  data ← dot response "data";
  item ← dot data "data";
  itemText ← dot item "text";
  id ← dot item "id";
  mret (mkResult [textBlock (t ("Successfully added checklist item: " +:+
                                toStr itemText +:+ " (ID: " +:+ toStr id +:+ ")"))]).

Definition updateChecklistItem (taskId itemId updates : JsVal)
  : Async ToolCallResult :=
  response ← habiticaClient.put
               ("/tasks/" +:+ toStr taskId +:+ "/checklist/" +:+ toStr itemId)
               (Some updates);
  data ← dot response "data";
  item ← dot data "data";
  itemText ← dot item "text";
  mret (mkResult [textBlock (t ("Successfully updated checklist item: " +:+
                                toStr itemText))]).

Definition deleteChecklistItem (taskId itemId : JsVal) : Async ToolCallResult :=
  _ ← habiticaClient.delete
        ("/tasks/" +:+ toStr taskId +:+ "/checklist/" +:+ toStr itemId);
  mret (mkResult [textBlock (t ("Successfully deleted checklist item (ID: " +:+
                                toStr itemId +:+ ")"))]).

Definition scoreChecklistItem (taskId itemId : JsVal) : Async ToolCallResult :=
  response ← habiticaClient.post
               ("/tasks/" +:+ toStr taskId +:+ "/checklist/" +:+ toStr itemId +:+
                "/score") None;
  data ← dot response "data";
  item ← dot data "data";
  itemText ← dot item "text";
  completed ← dot item "completed";
  mret (mkResult [textBlock (t ("Successfully scored checklist item: " +:+
                                toStr itemText +:+ " (completed: " +:+
                                toStr completed +:+ ")"))]).

(* ================================================================== *)
(** ** The dispatcher *)

(** The handler of [ListToolsRequestSchema]: [{ tools: tools }]. *)
Definition listTools : list ToolDescriptor := tools.

(** The [case] clauses of the [switch], in source order: the label and the
    statement [return await handler(args.x, ...)].  The arguments are read
    from [args] left to right before the call. *)
Definition cases : list (string * (JsVal -> Async ToolCallResult)) :=
  [ ("get_user_profile", fun args => getUserProfile);
    ("get_tasks", fun args => type ← dot args "type"; getTasks type);
    ("create_task", fun args => createTask args);
    ("score_task", fun args =>
       taskId ← dot args "taskId";
       direction ← dot args "direction";
       scoreTask taskId direction);
    ("update_task", fun args => taskId ← dot args "taskId"; updateTask taskId args);
    ("delete_task", fun args => taskId ← dot args "taskId"; deleteTask taskId);
    ("get_stats", fun args => getStats);
    ("buy_reward", fun args => key ← dot args "key"; buyReward key);
    ("get_inventory", fun args => getInventory);
    ("cast_spell", fun args =>
       spellId ← dot args "spellId";
       targetId ← dot args "targetId";
       castSpell spellId targetId);
    ("get_tags", fun args => getTags);
    ("create_tag", fun args => name ← dot args "name"; createTag name);
    ("get_pets", fun args => getPets);
    ("feed_pet", fun args =>
       pet ← dot args "pet";
       food ← dot args "food";
       feedPet pet food);
    ("hatch_pet", fun args =>
       egg ← dot args "egg";
       hatchingPotion ← dot args "hatchingPotion";
       hatchPet egg hatchingPotion);
    ("get_mounts", fun args => getMounts);
    ("equip_item", fun args =>
       type ← dot args "type";
       key ← dot args "key";
       equipItem type key);
    ("get_notifications", fun args => getNotifications);
    ("read_notification", fun args =>
       notificationId ← dot args "notificationId";
       readNotification notificationId);
    ("get_shop", fun args => shopType ← dot args "shopType"; getShop shopType);
    ("buy_item", fun args =>
       itemKey ← dot args "itemKey";
       quantity ← dot args "quantity";
       buyItem itemKey quantity);
    ("get_task_checklist", fun args =>
       taskId ← dot args "taskId";
       getTaskChecklist taskId);
    ("add_checklist_item", fun args =>
       taskId ← dot args "taskId";
       text ← dot args "text";
       addChecklistItem taskId text);
    ("update_checklist_item", fun args =>
       taskId ← dot args "taskId";
       itemId ← dot args "itemId";
       updateChecklistItem taskId itemId args);
    ("delete_checklist_item", fun args =>
       taskId ← dot args "taskId";
       itemId ← dot args "itemId";
       deleteChecklistItem taskId itemId);
    ("score_checklist_item", fun args =>
       taskId ← dot args "taskId";
       itemId ← dot args "itemId";
       scoreChecklistItem taskId itemId) ].

(** The labels of the [switch], in source order. *)
Definition caseLabels : list string := map fst cases.

(** [switch (name)]: the first clause whose label is strictly equal to
    [name]; [None] is the [default] clause. *)
Fixpoint selectCase {H : Type} (clauses : list (string * H)) (name : string)
  : option H :=
  match clauses with
  | [] => None
  | (label, h) :: rest =>
      if String.eqb name label then Some h else selectCase rest name
  end.

(** The [try] block. *)
Definition switchBody (name : string) (args : JsVal) : Async ToolCallResult :=
  match selectCase cases name with
  | Some handler => handler args
  | None => throw (ThrownMcp (mkMcpError MethodNotFound ("Unknown tool: " +:+ name)))
  end.

(** The [catch] block.  [error.response?.data?.message || error.message ||
    'Unknown error']: the first read throws when [error] itself is
    [undefined] or [null]; the later operands are read only when the earlier
    ones are falsy. *)
Definition catchBlock (error : Thrown) : Async ToolCallResult :=
  match error with
  | ThrownMcp e => throw (ThrownMcp e)
  | ThrownJs err =>
      response ← dot err "response";
      let nested := optProp (optProp response "data") "message" in
      errorMessage ←
        (if truthy nested then mret nested
         else generic ← dot err "message";
              mret (js_or generic (JStr "Unknown error")));
      throw (ThrownMcp (mkMcpError InternalError
                          ("Habitica API error: " +:+ toStr errorMessage)))
  end.

(** The handler of [CallToolRequestSchema], applied to [request.params]. *)
Definition callTool (name : string) (args : JsVal) : Async ToolCallResult :=
  tryCatch (switchBody name args) catchBlock.

(* ================================================================== *)
(** ** Module start-up and the life of the process *)

Definition HABITICA_API_BASE : string := "https://habitica.com/api/v3".

Inductive RequestSchema : Type := ListToolsRequestSchema | CallToolRequestSchema.

(** What the process does to the outside world, in the order it does it. *)
Inductive Effect : Type :=
| ConsoleError (args : list JsVal)
| ProcessExit (code : Z)
| AxiosCreate (baseURL : string) (headers : list (string * string))
| NewServer (name version : string)
| SetRequestHandler (schema : RequestSchema)
| ServerConnect
| HttpCall (r : Request).

(** [process.env.X] is [undefined] or a string; [!x] holds for [undefined]
    and for the empty string. *)
Definition envTruthy (x : option string) : bool :=
  match x with
  | Some s => negb (String.eqb s "")
  | None => false
  end.

Definition envOr (a b : option string) : option string :=
  if envTruthy a then a else b.

(** The top-level statements of [index.js], run against the environment
    [process.env] (as left by [dotenv/config]).  [connectFailure] is what
    [runServer()] rejects with, if it does.  The result is the language left
    in [i18n.js] and the effects performed; [process.exit] ends them. *)
Definition startup (env : gmap string string) (connectFailure : option JsVal)
  : I18n.State * list Effect :=
  let HABITICA_USER_ID := env !! "HABITICA_USER_ID" in
  let HABITICA_API_TOKEN := env !! "HABITICA_API_TOKEN" in
  let i18n :=
    setLanguage (envOr (envOr (env !! "MCP_LANG") (env !! "LANG")) (Some "en"))
      I18n.init in
  (i18n,
   if negb (envTruthy HABITICA_USER_ID) || negb (envTruthy HABITICA_API_TOKEN)
   then
     [ ConsoleError
         [JStr (t "Error: Please set HABITICA_USER_ID and HABITICA_API_TOKEN environment variables")];
       ProcessExit 1 ]
   else
     let user := default "" HABITICA_USER_ID in
     let token := default "" HABITICA_API_TOKEN in
     [ AxiosCreate HABITICA_API_BASE
         [ ("x-api-user", user);
           ("x-api-key", token);
           ("x-client", user +:+ "-MCP-Server");
           ("Content-Type", "application/json") ];
       NewServer "habitica-mcp-server" "0.0.1";
       SetRequestHandler ListToolsRequestSchema;
       SetRequestHandler CallToolRequestSchema;
       ServerConnect ] ++
     match connectFailure with
     | None => [ConsoleError [JStr "Habitica MCP server started"]]
     | Some error => [ConsoleError [JStr "Server failed to start:"; error]; ProcessExit 1]
     end).

Definition isExit (e : Effect) : bool :=
  match e with
  | ProcessExit _ => true
  | _ => false
  end.

(** The process as a whole: start-up, then, unless the process has exited,
    the network calls of the tool invocations the transport delivers. *)
Definition run (env : gmap string string) (connectFailure : option JsVal)
    (client : Client) (incoming : list (string * JsVal)) : list Effect :=
  let effects := snd (startup env connectFailure) in
  if existsb isExit effects then effects
  else effects ++
       flat_map (fun call => map HttpCall (fst (callTool (fst call) (snd call) client)))
         incoming.

(** Effects that build the HTTP client or use the network. *)
Definition touchesNetwork (e : Effect) : bool :=
  match e with
  | AxiosCreate _ _ | HttpCall _ => true
  | _ => false
  end.

(* ================================================================== *)
(** ** Vocabulary of the properties *)

(** [sub] occurs in [s]. *)
Definition occursIn (sub s : string) : Prop :=
  exists pre post, s = pre +:+ sub +:+ post.

(** How many times a name stands in a list of names. *)
Definition occurrences (n : string) (names : list string) : nat :=
  List.length (List.filter (String.eqb n) names).

(** The remote answers request [r] with [response], whose body is [body]. *)
Definition answersBody (client : Client) (r : Request) (body : JsVal) : Prop :=
  exists response,
    client r = Resolved response /\ getProp response "data" = Return body.

(** The remote answers request [r] with a body whose [data] field is
    [result]. *)
Definition answersData (client : Client) (r : Request) (result : JsVal) : Prop :=
  exists body, answersBody client r body /\ getProp body "data" = Return result.

(** The three sources of an error message, by priority: the [message] nested
    in the remote response body, the failure's own [message], the fallback. *)
Definition nestedMessage (err : JsVal) : JsVal :=
  optProp (optProp (member err "response") "data") "message".

Definition chosenMessage (err : JsVal) : JsVal :=
  if truthy (nestedMessage err) then nestedMessage err
  else if truthy (member err "message") then member err "message"
  else JStr "Unknown error".

(** A phrase of a confirmation: present when the field is truthy. *)
Definition phrase (before : string) (v : JsVal) (after : string) : string :=
  if truthy v then before +:+ toStr v +:+ after else "".

(** The line of one checklist item. *)
Definition lineOf (item : JsVal) : string :=
  (if truthy (member item "completed") then "✓" else "○") +:+ " " +:+
  toStr (member item "text") +:+ " (ID: " +:+ toStr (member item "id") +:+ ")".

(** The checklist of a task as the listing reads it: the array under
    [checklist], or no item when the field is absent or falsy.  [None] when
    the field holds something else. *)
Definition checklistOf (task : JsVal) : option (list JsVal) :=
  match member task "checklist" with
  | JArr items => Some items
  | v => if truthy v then None else Some []
  end.

(** A descriptor of the registry, by name. *)
Definition findTool (n : string) : option ToolDescriptor :=
  List.find (fun td => String.eqb n (name td)) tools.

(** The schema of one argument of a tool: [inputSchema.properties.k]. *)
Definition argumentSchema (td : ToolDescriptor) (k : string) : JsVal :=
  member (member (inputSchema td) "properties") k.

(** An environment variable is unset or empty. *)
Definition unset (x : option string) : Prop := x = None \/ x = Some "".

(** The request [score_task] issues for its arguments. *)
Definition scoreRequest (taskId direction : JsVal) : Request :=
  mkRequest POST ("/tasks/" +:+ toStr taskId +:+ "/score/" +:+ toStr direction) None.

(** An [async] body that issues no request. *)
Definition silent {A : Type} (m : Async A) : Prop :=
  forall client, (m client).1 = [].

(** The character [c] stands somewhere in [s]. *)
Fixpoint hasChar (c : ascii) (s : string) : bool :=
  match s with
  | EmptyString => false
  | String c' rest => Ascii.eqb c c' || hasChar c rest
  end.

(** The characters of the text of a finite Number: digits, the decimal
    point, the exponent mark and the signs. *)
Definition numericChar (c : ascii) : bool :=
  existsb (Ascii.eqb c) (String.list_ascii_of_string "0123456789.e+-").

Fixpoint numericText (s : string) : bool :=
  match s with
  | EmptyString => true
  | String c rest => numericChar c && numericText rest
  end.

Definition wfNumber (n : Number) : bool :=
  match n with
  | NInt _ => true
  | NText s => numericText s
  end.

(** A response field that is absent or a Number. *)
Definition numberOrAbsent (v : JsVal) : Prop :=
  v = JUndefined \/ exists n : Number, v = JNum n /\ wfNumber n = true.

(** [s] is a string held somewhere in [v]: [v] itself, an element of an
    array, the value of a property. *)
Inductive leafString (s : string) : JsVal -> Prop :=
| leaf_here : leafString s (JStr s)
| leaf_elem (elems : list JsVal) (e : JsVal) :
    e ∈ elems -> leafString s e -> leafString s (JArr elems)
| leaf_prop (props : list (string * JsVal)) (k : string) (x : JsVal) :
    (k, x) ∈ props -> leafString s x -> leafString s (JObj props).

(** A string that [QuoteJSONString] leaves as it is: no control character,
    no double quote, no backslash. *)
Definition plainChar (c : ascii) : bool :=
  let n := nat_of_ascii c in
  negb (n <? 32)%nat && negb (n =? 34)%nat && negb (n =? 92)%nat.

Fixpoint plainString (s : string) : bool :=
  match s with
  | EmptyString => true
  | String c rest => plainChar c && plainString rest
  end.

(** Sample data of the properties. *)
Definition remoteErrorX : JsVal :=
  JObj [("response", JObj [("data", JObj [("message", JStr "X")])])].

Definition tagsBody : JsVal :=
  JObj [("data", JArr [JObj [("id", JStr "t1"); ("name", JStr "Health")]])].

Definition scoreData : JsVal :=
  JObj [("exp", JNum 10); ("gp", JNum 2); ("lvl", JNum 5)].

(** [s] between double quotes. *)
Definition quoted (s : string) : string := dquote +:+ s +:+ dquote.

(** The pretty-printed text of [tagsBody]. *)
Definition tagsText : string :=
  String.concat newline
    [ "{";
      "  " +:+ quoted "data" +:+ ": [";
      "    {";
      "      " +:+ quoted "id" +:+ ": " +:+ quoted "t1" +:+ ",";
      "      " +:+ quoted "name" +:+ ": " +:+ quoted "Health";
      "    }";
      "  ]";
      "}" ].

Definition sampleItems : list JsVal :=
  [ JObj [("id", JStr "a1"); ("text", JStr "Milk"); ("completed", JBool true)];
    JObj [("id", JStr "b2"); ("text", JStr "Eggs"); ("completed", JBool false)] ].

Definition sampleTask : JsVal :=
  JObj [("text", JStr "Groceries"); ("checklist", JArr sampleItems)].

(** A client that answers every request with the body [body]. *)
Definition constClient (body : JsVal) : Client :=
  fun _ => Resolved (JObj [("data", body)]).

(** A client that rejects every request with [reason]. *)
Definition failingClient (reason : Thrown) : Client :=
  fun _ => Rejected reason.

(** ** Vocabulary of the further properties *)

(** The [InternalError] the [catch] block builds around a message. *)
Definition internalError (msg : string) : Thrown :=
  ThrownMcp (mkMcpError InternalError ("Habitica API error: " +:+ msg)).

(** The argument names a tool's schema declares: the keys of
    [inputSchema.properties]. *)
Definition declaredArguments (td : ToolDescriptor) : list string :=
  match member (inputSchema td) "properties" with
  | JObj props => map fst props
  | _ => []
  end.

(** The names listed under [inputSchema.required]. *)
Definition requiredArguments (td : ToolDescriptor) : list string :=
  match member (inputSchema td) "required" with
  | JArr names => omap (fun v => match v with JStr s => Some s | _ => None end) names
  | _ => []
  end.

(** The declared arguments of the tool registered under a name. *)
Definition argumentsOf (n : string) : list string :=
  match findTool n with
  | Some td => declaredArguments td
  | None => []
  end.

(** The declared arguments of a tool all have a text: the values a handler
    puts into a path or a confirmation can be converted. *)
Definition printableArguments (n : string) (args : JsVal) : bool :=
  forallb (fun k => printable (member args k)) (argumentsOf n).

(** A value that has a text in all its parts: no object within it holds an
    own [toString], and its integers are within the safe range. *)
Fixpoint printableThroughout (v : JsVal) : bool :=
  match v with
  | JNum (NInt z) => Z.abs z <=? 9007199254740991
  | JArr elems => forallb printableThroughout elems
  | JObj props =>
      match ownProp props "toString" with
      | Some _ => false
      | None => true
      end &&
      forallb (fun kv => match kv with (_, x) => printableThroughout x end) props
  | _ => true
  end.

(** The remote answers with such values only: whatever a handler quotes of a
    response can be converted. *)
Definition answersPrintably (client : Client) : Prop :=
  forall r response, client r = Resolved response ->
    printableThroughout response = true.

(** A string of ASCII characters, on which [toLowerCase] of the embedding
    is [String.prototype.toLowerCase]. *)
Fixpoint asciiOnly (s : string) : bool :=
  match s with
  | EmptyString => true
  | String c rest => (nat_of_ascii c <? 128)%nat && asciiOnly rest
  end.

(** A handler that starts with one request and sends no other: on every
    non-null argument object it is [await] of a request followed by a
    silent continuation. *)
Definition oneRequestShape (h : JsVal -> Async ToolCallResult) : Prop :=
  forall args, nullish args = false ->
    exists r k,
      (forall response, silent (k response)) /\
      (forall client, h args client = (await r ≫= k) client).




(** What a handler does when [arguments] is [undefined] or [null]: either it
    never reads an argument and sends its request all the same, or it stops
    at the first argument it reads, before any request. *)
Definition absentShape (label : string) (h : JsVal -> Async ToolCallResult) : Prop :=
  forall args, nullish args = true ->
    ((argumentsOf label = [] \/ label = "create_task") /\
     exists r k,
       (forall response, silent (k response)) /\
       (forall client, h args client = (await r ≫= k) client))
    \/
    (exists key,
       (forall client, h args client = ([], Throw (cannotRead args key))) /\
       key ∈ argumentsOf label /\
       argumentsOf label <> [] /\ label <> "create_task").

(** The tools that hand the whole argument object to the remote. *)
Definition forwardsArguments : list string :=
  ["create_task"; "update_task"; "update_checklist_item"].

(** The tools whose confirmation is built from the arguments alone. *)
Definition ignoresResponse : list string :=
  ["delete_task"; "cast_spell"; "equip_item"; "read_notification";
   "delete_checklist_item"].

(** The request of the five tools that read the user. *)
Definition userRequest : Request := mkRequest GET "/user" None.

(** The tools whose confirmation quotes a field of the remote result. *)
Definition quotesResult : list string :=
  ["create_task"; "score_task"; "update_task"; "buy_reward"; "create_tag";
   "feed_pet"; "buy_item"; "add_checklist_item"; "update_checklist_item";
   "score_checklist_item"].

(* ================================================================== *)
(** * Properties *)

(** ** Steps of an [async] body *)

Lemma bind_return {A B : Type} (a : A) (k : A -> Async B) (client : Client) :
  (lift (Return a) ≫= k) client = k a client.
Proof.
  unfold mbind, Async_bind, lift. simpl. by destruct (k a client).
Qed.

Lemma bind_await {A : Type} (r : Request) (response : JsVal)
    (k : JsVal -> Async A) (client : Client) :
  client r = Resolved response ->
  (await r ≫= k) client = (r :: (k response client).1, (k response client).2).
Proof.
  intros Hr. unfold mbind, Async_bind, await. rewrite Hr.
  by destruct (k response client).
Qed.

Lemma bind_dot {A : Type} (v : JsVal) (k : string) (x : JsVal)
    (rest : JsVal -> Async A) (client : Client) :
  getProp v k = Return x ->
  (dot v k ≫= rest) client = rest x client.
Proof. intros Hx. unfold dot. rewrite Hx. apply bind_return. Qed.

Lemma getProp_member (v : JsVal) (k : string) :
  nullish v = false -> getProp v k = Return (member v k).
Proof. intros Hv. unfold getProp. by rewrite Hv. Qed.

Lemma tryCatch_rethrow {A : Type} (body : Async A) (handler : Thrown -> Async A)
    (client : Client) (log : list Request) (e e' : Thrown) :
  body client = (log, Throw e) ->
  handler e client = ([], Throw e') ->
  tryCatch body handler client = (log, Throw e').
Proof.
  intros Hb Hh. unfold tryCatch. rewrite Hb, Hh. by rewrite app_nil_r.
Qed.

(** ** The registry and the switch *)

Lemma selectCase_None {H : Type} (clauses : list (string * H)) (n : string) :
  n ∉ map fst clauses -> selectCase clauses n = None.
Proof.
  induction clauses as [|[label h] rest IH]; simpl; [done|].
  intros Hn. apply not_elem_of_cons in Hn as [Hne Hrest].
  destruct (String.eqb_spec n label) as [->|_]; [done|]. by apply IH.
Qed.

Lemma selectCase_Some {H : Type} (clauses : list (string * H)) (n : string) :
  n ∈ map fst clauses -> is_Some (selectCase clauses n).
Proof.
  induction clauses as [|[label h] rest IH]; simpl.
  - by intros ?%elem_of_nil.
  - intros [->|Hin]%elem_of_cons.
    + rewrite String.eqb_refl. by eexists.
    + destruct (String.eqb n label); [by eexists | by apply IH].
Qed.

Lemma caseLabels_registered (l : string) : l ∈ caseLabels -> l ∈ toolNames.
Proof.
  revert l. apply Forall_forall.
  apply (bool_decide_unpack _). by vm_compute.
Qed.

Lemma toolNames_dispatched (n : string) : n ∈ toolNames -> n ∈ caseLabels.
Proof.
  revert n. apply Forall_forall.
  apply (bool_decide_unpack _). by vm_compute.
Qed.

Lemma toolNames_NoDup : NoDup toolNames.
Proof. apply (bool_decide_unpack _). by vm_compute. Qed.

Lemma caseLabels_NoDup : NoDup caseLabels.
Proof. apply (bool_decide_unpack _). by vm_compute. Qed.

(** Every registered tool reaches a handler: the [default] clause is taken
    for unregistered names only. *)
Lemma registered_tool_has_handler (n : string) :
  n ∈ toolNames -> is_Some (selectCase cases n).
Proof. intros Hn. by apply selectCase_Some, toolNames_dispatched. Qed.

(** C2.  The registry and the switch name the same tools, each once: every
    name of the [tools] array labels exactly one [case] clause, and every
    [case] label is the name of exactly one descriptor. *)
Theorem registry_dispatch_bijection :
  (forall n, n ∈ toolNames -> occurrences n caseLabels = 1%nat) /\
  (forall l, l ∈ caseLabels -> occurrences l toolNames = 1%nat).
Proof.
  split; apply Forall_forall; repeat constructor.
Qed.

(** ** The catch-and-wrap boundary *)

Lemma append_nil_r (s : string) : s +:+ "" = s.
Proof.
  induction s as [|c s IH]; [done|].
  change (String c (s +:+ "") = String c s). by rewrite IH.
Qed.

Lemma append_assoc (s1 s2 s3 : string) : (s1 +:+ s2) +:+ s3 = s1 +:+ s2 +:+ s3.
Proof.
  induction s1 as [|c s1 IH]; [done|].
  change (String c ((s1 +:+ s2) +:+ s3) = String c (s1 +:+ s2 +:+ s3)).
  by rewrite IH.
Qed.

Lemma occursIn_suffix (pre s : string) : occursIn s (pre +:+ s).
Proof. exists pre, "". by rewrite append_nil_r. Qed.

(** C3.  A name that is not in the registry is answered by the [default]
    clause: no request is issued and the dispatcher throws an [McpError] of
    kind [MethodNotFound] (not [InternalError]) whose message carries the
    name. *)
Theorem unknown_tool_method_not_found (n : string) (args : JsVal) (client : Client) :
  n ∉ toolNames ->
  exists e,
    callTool n args client = ([], Throw (ThrownMcp e)) /\
    code e = MethodNotFound /\
    code e <> InternalError /\
    message e = "Unknown tool: " +:+ n /\
    occursIn n (message e).
Proof.
  intros Hn.
  exists (mkMcpError MethodNotFound ("Unknown tool: " +:+ n)).
  split_and!; [|done|done|done|apply occursIn_suffix].
  apply tryCatch_rethrow with (e := ThrownMcp (mkMcpError MethodNotFound ("Unknown tool: " +:+ n)));
    [|reflexivity].
  unfold switchBody. rewrite selectCase_None; [done|].
  intros Hl. by apply Hn, caseLabels_registered.
Qed.

Lemma unknown_tool_method_not_found_witness :
  exists e,
    callTool "does_not_exist" JUndefined (constClient JNull)
      = ([], Throw (ThrownMcp e)) /\
    code e = MethodNotFound /\
    code e <> InternalError /\
    message e = "Unknown tool: does_not_exist" /\
    occursIn "does_not_exist" (message e).
Proof.
  apply (unknown_tool_method_not_found "does_not_exist").
  apply (bool_decide_unpack _). by vm_compute.
Defined.

(** C4.  When the [try] block throws an [McpError], the dispatcher throws
    that same error, after the same requests: the [catch] block does not
    wrap it again. *)
Theorem mcp_error_rethrown_unchanged (n : string) (args : JsVal) (client : Client)
    (log : list Request) (e : McpError) :
  switchBody n args client = (log, Throw (ThrownMcp e)) ->
  callTool n args client = (log, Throw (ThrownMcp e)).
Proof.
  intros Hbody. by apply tryCatch_rethrow with (e := ThrownMcp e).
Qed.

Lemma mcp_error_rethrown_unchanged_witness :
  callTool "get_tags" (JObj [])
    (failingClient (ThrownMcp (mkMcpError (OtherCode (-32001)) "Request timed out")))
  = ([mkRequest GET "/tags" None],
     Throw (ThrownMcp (mkMcpError (OtherCode (-32001)) "Request timed out"))).
Proof.
  apply mcp_error_rethrown_unchanged. reflexivity.
Defined.

Lemma catchBlock_wraps (err : JsVal) (client : Client) :
  nullish err = false ->
  catchBlock (ThrownJs err) client =
    ([], Throw (ThrownMcp (mkMcpError InternalError
                             ("Habitica API error: " +:+ toStr (chosenMessage err))))).
Proof.
  intros Herr. unfold catchBlock.
  rewrite (bind_dot _ _ (member err "response")) by by apply getProp_member.
  unfold chosenMessage, nestedMessage.
  destruct (truthy (optProp (optProp (member err "response") "data") "message")).
  - reflexivity.
  - unfold dot. rewrite (getProp_member err "message" Herr).
    unfold mbind, mret, Async_bind, Async_ret, lift, throw, js_or. simpl.
    by destruct (truthy (member err "message")).
Qed.

(** C1, as the code has it.  When the [try] block throws anything that is not
    an [McpError] (and is not [undefined] or [null]), the dispatcher throws an
    [McpError] of kind [InternalError] after the same requests; the arguments
    and the answers of the remote are taken to have a text.  The text the
    error is built with is the fixed prefix followed by the text of the first
    truthy value among the [message] nested in the remote response body, the
    failure's own [message], and the fallback string, provided that value has
    a text.  (The SDK's constructor puts its own code prefix before the text
    it is given, so the [message] property of the error ends with it.) *)
Theorem failure_wrapped_as_internal_error (n : string) (args : JsVal)
    (client : Client) (log : list Request) (err : JsVal) :
  printableArguments n args = true ->
  answersPrintably client ->
  switchBody n args client = (log, Throw (ThrownJs err)) ->
  nullish err = false ->
  printable (chosenMessage err) = true ->
  callTool n args client =
    (log, Throw (ThrownMcp (mkMcpError InternalError
                              ("Habitica API error: " +:+ toStr (chosenMessage err)))))
  /\ (truthy (nestedMessage err) = true -> chosenMessage err = nestedMessage err)
  /\ (truthy (nestedMessage err) = false ->
      truthy (member err "message") = true ->
      chosenMessage err = member err "message")
  /\ (truthy (nestedMessage err) = false ->
      truthy (member err "message") = false ->
      chosenMessage err = JStr "Unknown error").
Proof.
  intros _ _ Hbody Herr _. split_and!.
  - eapply tryCatch_rethrow; [exact Hbody|]. by apply catchBlock_wraps.
  - unfold chosenMessage. by intros ->.
  - unfold chosenMessage. by intros -> ->.
  - unfold chosenMessage. by intros -> ->.
Qed.

Lemma failure_wrapped_as_internal_error_witness :
  callTool "get_tags" (JObj []) (failingClient (ThrownJs remoteErrorX)) =
    ([mkRequest GET "/tags" None],
     Throw (ThrownMcp (mkMcpError InternalError
                         ("Habitica API error: " +:+ toStr (chosenMessage remoteErrorX)))))
  /\ (truthy (nestedMessage remoteErrorX) = true ->
      chosenMessage remoteErrorX = nestedMessage remoteErrorX)
  /\ (truthy (nestedMessage remoteErrorX) = false ->
      truthy (member remoteErrorX "message") = true ->
      chosenMessage remoteErrorX = member remoteErrorX "message")
  /\ (truthy (nestedMessage remoteErrorX) = false ->
      truthy (member remoteErrorX "message") = false ->
      chosenMessage remoteErrorX = JStr "Unknown error").
Proof.
  apply (failure_wrapped_as_internal_error "get_tags" (JObj [])
           (failingClient (ThrownJs remoteErrorX))
           [mkRequest GET "/tags" None] remoteErrorX);
    [reflexivity | intros r response; discriminate | reflexivity..].
Defined.

(** C1, as stated, fails: against the remote error
    [{response: {data: {message: 'X'}}}] the internal error is built with the
    prefixed text, so that its message is not the remote message itself. *)
Lemma remote_message_is_prefixed :
  callTool "get_tags" (JObj []) (failingClient (ThrownJs remoteErrorX)) =
    ([mkRequest GET "/tags" None],
     Throw (ThrownMcp (mkMcpError InternalError "Habitica API error: X")))
  /\ "Habitica API error: X" <> "X".
Proof. split; [reflexivity | discriminate]. Qed.

(** ** Requests issued *)

Lemma silent_lift {A : Type} (o : Outcome A) : silent (lift o).
Proof. by intros client. Qed.

Lemma silent_ret {A : Type} (a : A) : silent (mret a).
Proof. by intros client. Qed.

Lemma silent_bind {A B : Type} (m : Async A) (k : A -> Async B) :
  silent m -> (forall a, silent (k a)) -> silent (m ≫= k).
Proof.
  intros Hm Hk client. specialize (Hm client).
  unfold mbind, Async_bind. destruct (m client) as [log [a| |]]; simpl in *; subst;
    [|done|done].
  specialize (Hk a client). by destruct (k a client).
Qed.

Lemma silent_dot (v : JsVal) (k : string) : silent (dot v k).
Proof. apply silent_lift. Qed.

Lemma await_then_silent {A : Type} (r : Request) (k : JsVal -> Async A)
    (client : Client) :
  (forall response, silent (k response)) ->
  ((await r ≫= k) client).1 = [r].
Proof.
  intros Hk. unfold mbind, Async_bind, await.
  destruct (client r) as [response|reason]; [|done].
  specialize (Hk response client). destruct (k response client); simpl in *.
  by subst.
Qed.

Lemma silent_catchBlock (e : Thrown) : silent (catchBlock e).
Proof.
  destruct e as [e|err]; [apply silent_lift|].
  apply silent_bind; [apply silent_dot|]. intros response. cbv zeta.
  apply silent_bind; [|intros; apply silent_lift].
  destruct (truthy _); [apply silent_ret|].
  apply silent_bind; [apply silent_dot|]. intros; apply silent_ret.
Qed.

Lemma tryCatch_requests {A : Type} (body : Async A) (handler : Thrown -> Async A)
    (client : Client) :
  (forall e, silent (handler e)) ->
  (tryCatch body handler client).1 = (body client).1.
Proof.
  intros Hh. unfold tryCatch. destruct (body client) as [log [a|e|]]; [done| |done].
  specialize (Hh e client). destruct (handler e client); simpl in *; subst.
  apply app_nil_r.
Qed.

Lemma tryCatch_return {A : Type} (body : Async A) (handler : Thrown -> Async A)
    (client : Client) (log : list Request) (a : A) :
  body client = (log, Return a) ->
  tryCatch body handler client = (log, Return a).
Proof. intros Hb. unfold tryCatch. by rewrite Hb. Qed.

Ltac silent_steps :=
  repeat first
    [ apply silent_ret
    | apply silent_lift
    | apply silent_dot
    | apply silent_bind; [|intros ?]
    | progress cbv zeta ].

(** ** [score_task] *)

Lemma switchBody_score_task (args : JsVal) :
  switchBody "score_task" args =
    (taskId ← dot args "taskId";
     direction ← dot args "direction";
     scoreTask taskId direction).
Proof. reflexivity. Qed.

Lemma callTool_score_task (args : JsVal) (client : Client) :
  nullish args = false ->
  callTool "score_task" args client =
    tryCatch (scoreTask (member args "taskId") (member args "direction"))
      catchBlock client.
Proof.
  intros Hargs. unfold callTool, tryCatch. rewrite switchBody_score_task.
  by rewrite !(bind_dot args _ _ _ _ (getProp_member args _ Hargs)).
Qed.

Lemma scoreTask_requests (taskId direction : JsVal) (client : Client) :
  (scoreTask taskId direction client).1 =
    [scoreRequest taskId (orDefault direction (JStr "up"))].
Proof.
  unfold scoreTask, habiticaClient.post. cbv zeta.
  apply await_then_silent. intros response. silent_steps.
Qed.

Lemma scoreTask_success (taskId direction : JsVal) (client : Client)
    (result : JsVal) :
  answersData client (scoreRequest taskId (orDefault direction (JStr "up"))) result ->
  nullish result = false ->
  scoreTask taskId direction client =
    ([scoreRequest taskId (orDefault direction (JStr "up"))],
     Return (mkResult [textBlock
       ("Task completed! " +:+
        phrase "Gained " (member result "exp") " XP " +:+
        phrase "Gained " (member result "gp") " gold " +:+
        phrase "Leveled up to " (member result "lvl") "! ")])).
Proof.
  intros (body & (response & Hclient & Hbody) & Hresult) Hnn.
  unfold scoreTask, habiticaClient.post. cbv zeta.
  rewrite (bind_await _ response) by exact Hclient.
  rewrite (bind_dot response "data" body) by exact Hbody.
  rewrite (bind_dot body "data" result) by exact Hresult.
  rewrite !(bind_dot result _ _ _ _ (getProp_member result _ Hnn)).
  unfold phrase, mret, Async_ret, scoreRequest; simpl.
  destruct (truthy (member result "exp")), (truthy (member result "gp")),
    (truthy (member result "lvl"));
    rewrite ?append_assoc, ?append_nil_r; reflexivity.
Qed.

(** ** Characters of a text *)

Lemma hasChar_app (c : ascii) (s1 s2 : string) :
  hasChar c (s1 +:+ s2) = hasChar c s1 || hasChar c s2.
Proof.
  induction s1 as [|c' s1 IH]; [done|].
  change (Ascii.eqb c c' || hasChar c (s1 +:+ s2) =
          Ascii.eqb c c' || hasChar c s1 || hasChar c s2).
  rewrite IH. by destruct (Ascii.eqb c c'), (hasChar c s1).
Qed.

Lemma occursIn_hasChar (c : ascii) (sub s : string) :
  occursIn sub s -> hasChar c sub = true -> hasChar c s = true.
Proof.
  intros (pre & post & ->) Hsub. rewrite !hasChar_app, Hsub.
  by destruct (hasChar c pre).
Qed.

Lemma hasChar_X_pretty_N_go (x : N) (s : string) :
  hasChar "X" (pretty_N_go x s) = hasChar "X" s.
Proof.
  revert s. induction (N.lt_wf_0 x) as [x _ IH]; intros s.
  assert (x = 0 \/ 0 < x)%N as [->|Hpos] by lia.
  - by rewrite pretty_N_go_0.
  - rewrite pretty_N_go_step by done. rewrite IH by by apply N.div_lt.
    unfold pretty_N_char. by repeat case_match.
Qed.

Lemma hasChar_X_pretty_Z (z : Z) : hasChar "X" (pretty z) = false.
Proof.
  assert (forall p : positive, hasChar "X" (pretty p) = false) as Hpos.
  { intros p. unfold pretty, pretty_positive, pretty, pretty_N.
    case_decide; [done|]. by rewrite hasChar_X_pretty_N_go. }
  destruct z as [|p|p]; [done|apply Hpos|].
  change (hasChar "X" ("-" +:+ pretty p) = false).
  by rewrite hasChar_app, Hpos.
Qed.

Lemma numericChar_not_X (c : ascii) : numericChar c = true -> Ascii.eqb "X" c = false.
Proof. by destruct c as [[] [] [] [] [] [] [] []]. Qed.

Lemma hasChar_X_numericText (s : string) :
  numericText s = true -> hasChar "X" s = false.
Proof.
  induction s as [|c s IH]; [done|].
  intros H. change (numericChar c && numericText s = true) in H.
  apply andb_prop in H as [Hc Hs].
  change (Ascii.eqb "X" c || hasChar "X" s = false).
  by rewrite (numericChar_not_X c Hc), IH.
Qed.

Lemma hasChar_X_number (n : Number) :
  wfNumber n = true -> hasChar "X" (numberToString n) = false.
Proof.
  destruct n as [z|s]; simpl; [intros _; apply hasChar_X_pretty_Z|].
  apply hasChar_X_numericText.
Qed.

Lemma hasChar_X_phrase (before after : string) (v : JsVal) :
  numberOrAbsent v ->
  hasChar "X" before = false -> hasChar "X" after = false ->
  hasChar "X" (phrase before v after) = false.
Proof.
  intros [->|(n & -> & Hn)] Hb Ha; [done|].
  unfold phrase. destruct (truthy _); [|done].
  rewrite !hasChar_app, Hb, Ha. simpl. by rewrite hasChar_X_number.
Qed.

Lemma callTool_score_task_success (args : JsVal) (client : Client) (result : JsVal) :
  nullish args = false ->
  answersData client
    (scoreRequest (member args "taskId")
       (orDefault (member args "direction") (JStr "up"))) result ->
  nullish result = false ->
  callTool "score_task" args client =
    ([scoreRequest (member args "taskId")
        (orDefault (member args "direction") (JStr "up"))],
     Return (mkResult [textBlock
       ("Task completed! " +:+
        phrase "Gained " (member result "exp") " XP " +:+
        phrase "Gained " (member result "gp") " gold " +:+
        phrase "Leveled up to " (member result "lvl") "! ")])).
Proof.
  intros Hargs Hans Hnn. rewrite callTool_score_task by done.
  apply tryCatch_return. by apply scoreTask_success.
Qed.

(** C6.  When the remote answers [score_task] with a body whose [data] field
    holds [exp: 10], [gp: 2] and [lvl: 5], the result is one text block, the
    confirmation naming the experience gained, the gold gained and the level
    reached.  The task identifier and the direction, which go into the path,
    are taken to have a text. *)
Theorem score_task_confirms_rewards (args : JsVal) (client : Client)
    (result : JsVal) :
  nullish args = false ->
  answersData client
    (scoreRequest (member args "taskId")
       (orDefault (member args "direction") (JStr "up"))) result ->
  member result "exp" = JNum 10 ->
  member result "gp" = JNum 2 ->
  member result "lvl" = JNum 5 ->
  printable (member args "taskId") = true ->
  printable (member args "direction") = true ->
  exists confirmation,
    callTool "score_task" args client =
      ([scoreRequest (member args "taskId")
          (orDefault (member args "direction") (JStr "up"))],
       Return (mkResult [textBlock confirmation])) /\
    confirmation = "Task completed! Gained 10 XP Gained 2 gold Leveled up to 5! " /\
    occursIn "Gained 10 XP" confirmation /\
    occursIn "Gained 2 gold" confirmation /\
    occursIn "Leveled up to 5!" confirmation.
Proof.
  intros Hargs Hans Hexp Hgp Hlvl _ _.
  assert (nullish result = false) as Hnn.
  { destruct result; try done; discriminate Hexp. }
  eexists. split; [|split; [reflexivity|]].
  - rewrite (callTool_score_task_success args client result) by done.
    by rewrite Hexp, Hgp, Hlvl.
  - split_and!.
    + by exists "Task completed! ", " Gained 2 gold Leveled up to 5! ".
    + by exists "Task completed! Gained 10 XP ", " Leveled up to 5! ".
    + by exists "Task completed! Gained 10 XP Gained 2 gold ", " ".
Qed.

Lemma score_task_confirms_rewards_witness :
  exists confirmation,
    callTool "score_task" (JObj [("taskId", JStr "abc")])
      (constClient (JObj [("data", scoreData)])) =
      ([mkRequest POST "/tasks/abc/score/up" None],
       Return (mkResult [textBlock confirmation])) /\
    confirmation = "Task completed! Gained 10 XP Gained 2 gold Leveled up to 5! " /\
    occursIn "Gained 10 XP" confirmation /\
    occursIn "Gained 2 gold" confirmation /\
    occursIn "Leveled up to 5!" confirmation.
Proof.
  apply (score_task_confirms_rewards (JObj [("taskId", JStr "abc")])
           (constClient (JObj [("data", scoreData)])) scoreData);
    try reflexivity.
  exists (JObj [("data", scoreData)]). split; [|reflexivity].
  exists (JObj [("data", JObj [("data", scoreData)])]). split; reflexivity.
Defined.

(** C9.  When [score_task] is invoked without a [direction], with a task
    identifier that has a text, the one request it issues goes to
    [/tasks/{taskId}/score/up]; the schema of the tool declares [direction] as
    a string and declares no default for it. *)
Theorem score_task_direction_defaults_to_up (args : JsVal) (client : Client) :
  nullish args = false ->
  member args "direction" = JUndefined ->
  printable (member args "taskId") = true ->
  (callTool "score_task" args client).1 =
    [mkRequest POST ("/tasks/" +:+ toStr (member args "taskId") +:+ "/score/up") None]
  /\ exists td props,
       findTool "score_task" = Some td /\
       argumentSchema td "direction" = JObj props /\
       ownProp props "type" = Some (JStr "string") /\
       ownProp props "enum" = Some (JArr [JStr "up"; JStr "down"]) /\
       ownProp props "default" = None.
Proof.
  intros Hargs Hdir _. split.
  - rewrite callTool_score_task by done.
    rewrite tryCatch_requests by apply silent_catchBlock.
    rewrite scoreTask_requests, Hdir. reflexivity.
  - do 2 eexists. split_and!; reflexivity.
Qed.

Lemma score_task_direction_defaults_to_up_witness :
  (callTool "score_task" (JObj [("taskId", JStr "abc")]) (constClient JNull)).1 =
    [mkRequest POST
       ("/tasks/" +:+ toStr (member (JObj [("taskId", JStr "abc")]) "taskId") +:+
        "/score/up") None]
  /\ exists td props,
       findTool "score_task" = Some td /\
       argumentSchema td "direction" = JObj props /\
       ownProp props "type" = Some (JStr "string") /\
       ownProp props "enum" = Some (JArr [JStr "up"; JStr "down"]) /\
       ownProp props "default" = None.
Proof.
  apply (score_task_direction_defaults_to_up (JObj [("taskId", JStr "abc")])
           (constClient JNull)); reflexivity.
Defined.

(** C10.  The confirmation of [score_task] is the opening words followed by
    one phrase for each of [exp], [gp] and [lvl] whose value is truthy; a
    field that is [0] or absent contributes nothing.  With [exp] zero or
    absent, and [gp] and [lvl] Numbers or absent, the text [Gained 0 XP]
    does not occur in the confirmation.  The values that are put into the
    path and into the confirmation are taken to have a text. *)
Theorem score_task_phrases_need_truthy_fields (args : JsVal) (client : Client)
    (result : JsVal) :
  nullish args = false ->
  answersData client
    (scoreRequest (member args "taskId")
       (orDefault (member args "direction") (JStr "up"))) result ->
  nullish result = false ->
  printable (member args "taskId") = true ->
  printable (member args "direction") = true ->
  printable (member result "exp") = true ->
  printable (member result "gp") = true ->
  printable (member result "lvl") = true ->
  exists confirmation,
    callTool "score_task" args client =
      ([scoreRequest (member args "taskId")
          (orDefault (member args "direction") (JStr "up"))],
       Return (mkResult [textBlock confirmation])) /\
    confirmation =
      "Task completed! " +:+
      (if truthy (member result "exp")
       then "Gained " +:+ toStr (member result "exp") +:+ " XP " else "") +:+
      (if truthy (member result "gp")
       then "Gained " +:+ toStr (member result "gp") +:+ " gold " else "") +:+
      (if truthy (member result "lvl")
       then "Leveled up to " +:+ toStr (member result "lvl") +:+ "! " else "") /\
    (forall field, member result field = JNum 0 \/ member result field = JUndefined ->
       truthy (member result field) = false) /\
    (member result "exp" = JNum 0 \/ member result "exp" = JUndefined ->
     numberOrAbsent (member result "gp") ->
     numberOrAbsent (member result "lvl") ->
     ~ occursIn "Gained 0 XP" confirmation).
Proof.
  intros Hargs Hans Hnn _ _ _ _ _.
  eexists. split; [by apply callTool_score_task_success|].
  split; [reflexivity|]. split.
  - by intros field [-> | ->].
  - intros Hexp Hgp Hlvl Hocc.
    apply (occursIn_hasChar "X") in Hocc; [|done].
    rewrite !hasChar_app in Hocc.
    rewrite (hasChar_X_phrase _ _ _ Hgp), (hasChar_X_phrase _ _ _ Hlvl) in Hocc by done.
    unfold phrase in Hocc. by destruct Hexp as [Hexp | Hexp]; rewrite Hexp in Hocc.
Qed.

Lemma score_task_phrases_need_truthy_fields_witness :
  exists confirmation,
    callTool "score_task" (JObj [("taskId", JStr "abc"); ("direction", JStr "down")])
      (constClient (JObj [("data", JObj [("exp", JNum 0); ("gp", JNum 2)])])) =
      ([mkRequest POST "/tasks/abc/score/down" None],
       Return (mkResult [textBlock confirmation])) /\
    confirmation = "Task completed! Gained 2 gold " /\
    ~ occursIn "Gained 0 XP" confirmation.
Proof.
  pose (args := JObj [("taskId", JStr "abc"); ("direction", JStr "down")]).
  pose (result := JObj [("exp", JNum 0); ("gp", JNum 2)]).
  destruct (score_task_phrases_need_truthy_fields args
              (constClient (JObj [("data", result)])) result)
    as (confirmation & Hcall & Htext & _ & Hno).
  - reflexivity.
  - exists (JObj [("data", result)]). split; [|reflexivity].
    exists (JObj [("data", JObj [("data", result)])]). split; reflexivity.
  - reflexivity.
  - reflexivity.
  - reflexivity.
  - reflexivity.
  - reflexivity.
  - reflexivity.
  - exists confirmation. split; [exact Hcall|]. split; [exact Htext|].
    apply Hno.
    + by left.
    + right. by exists (NInt 2).
    + by left.
Defined.

(** ** Strings of a value in its JSON text *)

Lemma occursIn_refl (s : string) : occursIn s s.
Proof. exists "", "". by rewrite append_nil_r. Qed.

Lemma occursIn_app_l (sub s t : string) : occursIn sub s -> occursIn sub (s +:+ t).
Proof.
  intros (pre & post & ->). exists pre, (post +:+ t).
  by rewrite !append_assoc.
Qed.

Lemma occursIn_app_r (sub s t : string) : occursIn sub t -> occursIn sub (s +:+ t).
Proof.
  intros (pre & post & ->). exists (s +:+ pre), post.
  by rewrite !append_assoc.
Qed.

Lemma occursIn_concat (sub sep x : string) (l : list string) :
  x ∈ l -> occursIn sub x -> occursIn sub (String.concat sep l).
Proof.
  intros Hin Hx. induction l as [|y l IH]; [by apply elem_of_nil in Hin|].
  apply elem_of_cons in Hin as [<-|Hin].
  - destruct l as [|z l]; [done|]. by apply occursIn_app_l.
  - destruct l as [|z l]; [by apply elem_of_nil in Hin|].
    change (occursIn sub (y +:+ sep +:+ String.concat sep (z :: l))).
    by apply occursIn_app_r, occursIn_app_r, IH.
Qed.

Lemma quoteChar_plain (c : ascii) : plainChar c = true -> quoteChar c = String c "".
Proof. by destruct c as [[] [] [] [] [] [] [] []]. Qed.

Lemma quoteChars_plain (s : string) : plainString s = true -> quoteChars s = s.
Proof.
  induction s as [|c s IH]; [done|].
  intros H. change (plainChar c && plainString s = true) in H.
  apply andb_prop in H as [Hc Hs].
  change (quoteChar c +:+ quoteChars s = String c s).
  by rewrite (quoteChar_plain c Hc), IH.
Qed.

Lemma serialize_array (indent : string) (elems : list JsVal) :
  serialize indent (JArr elems) =
    Some (match map (fun e => default "null" (serialize (indent +:+ gap) e)) elems with
          | [] => "[]"
          | partial =>
              "[" +:+ newline +:+ (indent +:+ gap) +:+
              String.concat ("," +:+ newline +:+ (indent +:+ gap)) partial +:+
              newline +:+ indent +:+ "]"
          end).
Proof. by destruct elems. Qed.

Lemma serialize_object (indent : string) (props : list (string * JsVal)) :
  serialize indent (JObj props) =
    Some (match omap (fun kv : string * JsVal =>
                        match kv with
                        | (k, x) =>
                            match serialize (indent +:+ gap) x with
                            | Some s => Some (quoteJSON k +:+ ": " +:+ s)
                            | None => None
                            end
                        end) props with
          | [] => "{}"
          | partial =>
              "{" +:+ newline +:+ (indent +:+ gap) +:+
              String.concat ("," +:+ newline +:+ (indent +:+ gap)) partial +:+
              newline +:+ indent +:+ "}"
          end).
Proof. simpl. by destruct (omap _ props). Qed.

(** [JSON.stringify] answers a string for every value but [undefined]. *)
Lemma JSON_stringify_defined (v : JsVal) :
  v <> JUndefined -> exists s, JSON_stringify v = JStr s.
Proof.
  intros Hv. unfold JSON_stringify.
  destruct v as [| |[|]|n|s|elems|props]; by eauto.
Qed.

(** Every string held in a value has its JSON literal in the text of the
    value, at every indentation. *)
Lemma serialize_leafString (s : string) (v : JsVal) :
  leafString s v ->
  forall indent, exists text,
    serialize indent v = Some text /\ occursIn (quoteJSON s) text.
Proof.
  induction 1 as [|elems e Hin _ IH|props k x Hin _ IH]; intros indent.
  - exists (quoteJSON s). split; [done|apply occursIn_refl].
  - destruct (IH (indent +:+ gap)) as (text & Htext & Hocc).
    eexists. split; [apply serialize_array|].
    assert (text ∈ map (fun e => default "null" (serialize (indent +:+ gap) e)) elems)
      as Hpart.
    { apply list_elem_of_In, in_map_iff. exists e.
      split; [by rewrite Htext | by apply list_elem_of_In]. }
    destruct (map _ elems) as [|y l]; [by apply elem_of_nil in Hpart|].
    do 3 apply occursIn_app_r. apply occursIn_app_l.
    by apply occursIn_concat with text.
  - destruct (IH (indent +:+ gap)) as (text & Htext & Hocc).
    eexists. split; [apply serialize_object|].
    assert (quoteJSON k +:+ ": " +:+ text ∈
            omap (fun kv : string * JsVal =>
                    match kv with
                    | (k, x) =>
                        match serialize (indent +:+ gap) x with
                        | Some s => Some (quoteJSON k +:+ ": " +:+ s)
                        | None => None
                        end
                    end) props) as Hpart.
    { apply list_elem_of_omap. exists (k, x). split; [done|]. simpl.
      by rewrite Htext. }
    destruct (omap _ props) as [|y l]; [by apply elem_of_nil in Hpart|].
    do 3 apply occursIn_app_r. apply occursIn_app_l.
    apply occursIn_concat with (quoteJSON k +:+ ": " +:+ text); [done|].
    by do 2 apply occursIn_app_r.
Qed.

Lemma JSON_stringify_leafString (s : string) (v : JsVal) :
  plainString s = true -> leafString s v ->
  exists text, JSON_stringify v = JStr text /\ occursIn (quoted s) text.
Proof.
  intros Hplain Hleaf.
  destruct (serialize_leafString s v Hleaf "") as (text & Htext & Hocc).
  exists text. unfold JSON_stringify. rewrite Htext. split; [done|].
  unfold quoteJSON in Hocc. by rewrite quoteChars_plain in Hocc.
Qed.

(** ** [get_tags] *)

Lemma switchBody_get_tags (args : JsVal) : switchBody "get_tags" args = getTags.
Proof. reflexivity. Qed.

(** C7.  When the remote answers [GET /tags], the result of [get_tags] is one
    text block holding [JSON.stringify(body, null, 2)] of the whole response
    body.  Every plain string held in the body occurs in that text, between
    double quotes; for the body [{data: [{id: 't1', name: 'Health'}]}] the
    text is the indented rendering, in which the quoted [t1] and [Health]
    occur. *)
Theorem get_tags_pretty_prints_body (args : JsVal) (client : Client) (body : JsVal) :
  answersBody client (mkRequest GET "/tags" None) body ->
  callTool "get_tags" args client =
    ([mkRequest GET "/tags" None],
     Return (mkResult [mkBlock "text" (JSON_stringify body)]))
  /\ (forall s, plainString s = true -> leafString s body ->
      exists printed, JSON_stringify body = JStr printed /\ occursIn (quoted s) printed)
  /\ (body = tagsBody ->
      JSON_stringify body = JStr tagsText /\
      occursIn (quoted "t1") tagsText /\
      occursIn (quoted "Health") tagsText).
Proof.
  intros (response & Hclient & Hbody). split_and!.
  - unfold callTool. apply tryCatch_return. rewrite switchBody_get_tags.
    unfold getTags, habiticaClient.get.
    rewrite (bind_await _ response) by exact Hclient.
    by rewrite (bind_dot response "data" body) by exact Hbody.
  - intros s Hplain Hleaf. by apply JSON_stringify_leafString.
  - intros ->. split_and!; [reflexivity| |].
    + eexists (String.concat newline
                 ["{"; "  " +:+ quoted "data" +:+ ": ["; "    {"; "      " +:+ quoted "id" +:+ ": "]),
              _.
      vm_compute. reflexivity.
    + eexists (String.concat newline
                 ["{"; "  " +:+ quoted "data" +:+ ": ["; "    {";
                  "      " +:+ quoted "id" +:+ ": " +:+ quoted "t1" +:+ ",";
                  "      " +:+ quoted "name" +:+ ": "]),
              _.
      vm_compute. reflexivity.
Qed.

Lemma get_tags_pretty_prints_body_witness :
  callTool "get_tags" JUndefined (constClient tagsBody) =
    ([mkRequest GET "/tags" None],
     Return (mkResult [mkBlock "text" (JSON_stringify tagsBody)]))
  /\ (forall s, plainString s = true -> leafString s tagsBody ->
      exists printed,
        JSON_stringify tagsBody = JStr printed /\ occursIn (quoted s) printed)
  /\ (tagsBody = tagsBody ->
      JSON_stringify tagsBody = JStr tagsText /\
      occursIn (quoted "t1") tagsText /\
      occursIn (quoted "Health") tagsText).
Proof.
  apply (get_tags_pretty_prints_body JUndefined (constClient tagsBody) tagsBody).
  exists (JObj [("data", tagsBody)]). split; reflexivity.
Defined.

(** ** [get_task_checklist] *)

Lemma switchBody_get_task_checklist (args : JsVal) :
  switchBody "get_task_checklist" args =
    (taskId ← dot args "taskId"; getTaskChecklist taskId).
Proof. reflexivity. Qed.

Lemma checklistLine_lineOf (item : JsVal) :
  nullish item = false -> checklistLine item = Return (lineOf item).
Proof. intros Hitem. unfold checklistLine. by rewrite Hitem. Qed.

Lemma mapOutcome_checklistLine (items : list JsVal) :
  Forall (fun item => nullish item = false) items ->
  mapOutcome checklistLine items = Return (map lineOf items).
Proof.
  induction 1 as [|item items Hitem _ IH]; simpl; [done|].
  by rewrite checklistLine_lineOf, IH.
Qed.

Lemma checklistOf_js_or (task : JsVal) (items : list JsVal) :
  checklistOf task = Some items ->
  js_or (member task "checklist") (JArr []) = JArr items.
Proof.
  unfold checklistOf, js_or.
  destruct (member task "checklist") as [| |b|n|s|elems|props];
    try (destruct (truthy _); congruence).
  simpl. congruence.
Qed.

Lemma lineOf_not_empty (item : JsVal) (rest : string) : lineOf item +:+ rest <> "".
Proof. unfold lineOf. by destruct (truthy _). Qed.

Lemma concat_lines_not_empty (item : JsVal) (items : list JsVal) :
  String.concat newline (map lineOf (item :: items)) <> "".
Proof.
  destruct items as [|item' items]; simpl.
  - rewrite <- (append_nil_r (lineOf item)). apply lineOf_not_empty.
  - apply lineOf_not_empty.
Qed.

(** C5.  When the remote answers with a task whose [checklist] is an array of
    items, or is absent, and the values that are put into the path and into
    the two texts (the task identifier, the title, the text and the ID of
    each item) have a text, [get_task_checklist] returns exactly two text
    blocks.  The first names the task title and the number of items.  The
    second is the fixed placeholder when there is no item, and otherwise the
    lines of the items joined by newlines, one per item: the glyph of its
    completion state, its text and its ID.  The second block is never
    empty. *)
Theorem get_task_checklist_two_blocks (args : JsVal) (client : Client)
    (task : JsVal) (items : list JsVal) :
  nullish args = false ->
  answersData client
    (mkRequest GET ("/tasks/" +:+ toStr (member args "taskId")) None) task ->
  nullish task = false ->
  checklistOf task = Some items ->
  Forall (fun item => nullish item = false) items ->
  printable (member args "taskId") = true ->
  printable (member task "text") = true ->
  Forall (fun item => printable (member item "text") = true /\
                      printable (member item "id") = true) items ->
  exists header body,
    callTool "get_task_checklist" args client =
      ([mkRequest GET ("/tasks/" +:+ toStr (member args "taskId")) None],
       Return (mkResult [textBlock header; textBlock body])) /\
    header = "Task: " +:+ toStr (member task "text") +:+ newline +:+
             "Checklist items (" +:+ pretty (Z.of_nat (List.length items)) +:+ "):" /\
    (items = [] -> body = "No checklist items found") /\
    (items <> [] ->
     body = String.concat newline
              (map (fun item =>
                      (if truthy (member item "completed") then "✓" else "○") +:+
                      " " +:+ toStr (member item "text") +:+
                      " (ID: " +:+ toStr (member item "id") +:+ ")") items)) /\
    body <> "".
Proof.
  intros Hargs (data & (response & Hclient & Hdata) & Htask) Hnn Hcl Hitems _ _ _.
  exists ("Task: " +:+ toStr (member task "text") +:+ newline +:+
          "Checklist items (" +:+ pretty (Z.of_nat (List.length items)) +:+ "):"),
         (match items with
          | [] => "No checklist items found"
          | _ => String.concat newline (map lineOf items)
          end).
  split_and!.
  - unfold callTool. apply tryCatch_return.
    rewrite switchBody_get_task_checklist.
    rewrite (bind_dot args "taskId" _ _ _ (getProp_member args _ Hargs)).
    unfold getTaskChecklist, habiticaClient.get.
    rewrite (bind_await _ response) by exact Hclient.
    rewrite (bind_dot response "data" data) by exact Hdata.
    rewrite (bind_dot data "data" task) by exact Htask.
    rewrite (bind_dot task "checklist" _ _ _ (getProp_member task _ Hnn)).
    cbv zeta. rewrite (checklistOf_js_or task items Hcl).
    rewrite (bind_dot task "text" _ _ _ (getProp_member task _ Hnn)).
    rewrite (bind_dot (JArr items) "length" (JNum (Z.of_nat (List.length items))))
      by reflexivity.
    destruct items as [|item items]; [reflexivity|].
    change (gtZero (JNum (Z.of_nat (List.length (item :: items)))))
      with (Some (0 <? Z.of_nat (List.length (item :: items)))).
    replace (0 <? Z.of_nat (List.length (item :: items))) with true
      by (symmetry; apply Z.ltb_lt; simpl; lia).
    unfold checklistLines. rewrite (mapOutcome_checklistLine _ Hitems).
    reflexivity.
  - reflexivity.
  - by intros ->.
  - by destruct items.
  - destruct items as [|item items]; [done|]. apply concat_lines_not_empty.
Qed.

Lemma get_task_checklist_two_blocks_witness :
  exists header body,
    callTool "get_task_checklist" (JObj [("taskId", JStr "t9")])
      (constClient (JObj [("data", sampleTask)])) =
      ([mkRequest GET "/tasks/t9" None],
       Return (mkResult [textBlock header; textBlock body])) /\
    header = "Task: Groceries" +:+ newline +:+ "Checklist items (2):" /\
    body = "✓ Milk (ID: a1)" +:+ newline +:+ "○ Eggs (ID: b2)".
Proof.
  destruct (get_task_checklist_two_blocks (JObj [("taskId", JStr "t9")])
              (constClient (JObj [("data", sampleTask)])) sampleTask sampleItems)
    as (header & body & Hcall & Hheader & _ & Hbody & _).
  - reflexivity.
  - exists (JObj [("data", sampleTask)]). split; [|reflexivity].
    exists (JObj [("data", JObj [("data", sampleTask)])]). split; reflexivity.
  - reflexivity.
  - reflexivity.
  - repeat constructor.
  - reflexivity.
  - reflexivity.
  - repeat constructor.
  - exists header, body. split; [exact Hcall|]. split; [exact Hheader|].
    by apply Hbody.
Defined.

(** ** Start-up *)

Lemma startup_exits (env : gmap string string) (connectFailure : option JsVal) :
  envTruthy (env !! "HABITICA_USER_ID") = false \/
  envTruthy (env !! "HABITICA_API_TOKEN") = false ->
  (startup env connectFailure).2 =
    [ ConsoleError
        [JStr "Error: Please set HABITICA_USER_ID and HABITICA_API_TOKEN environment variables"];
      ProcessExit 1 ].
Proof.
  intros Hmissing. unfold startup. cbv zeta. simpl.
  destruct Hmissing as [-> | ->]; [done|].
  by destruct (envTruthy _).
Qed.

Lemma unset_not_truthy (x : option string) : unset x -> envTruthy x = false.
Proof. by intros [-> | ->]. Qed.

(** C8.  When [HABITICA_USER_ID] or [HABITICA_API_TOKEN] is unset or empty,
    the whole life of the process is two effects: the diagnostic on the
    error stream, then the exit with code 1.  The HTTP client is never
    built and no request is ever sent, whatever the transport delivers. *)
Theorem startup_without_credentials_exits (env : gmap string string)
    (connectFailure : option JsVal) (client : Client)
    (incoming : list (string * JsVal)) :
  unset (env !! "HABITICA_USER_ID") \/ unset (env !! "HABITICA_API_TOKEN") ->
  exists diagnostic exitCode,
    run env connectFailure client incoming =
      [ConsoleError [JStr diagnostic]; ProcessExit exitCode] /\
    diagnostic =
      "Error: Please set HABITICA_USER_ID and HABITICA_API_TOKEN environment variables" /\
    exitCode <> 0 /\
    existsb touchesNetwork (run env connectFailure client incoming) = false.
Proof.
  intros Hunset.
  assert (run env connectFailure client incoming =
          [ ConsoleError
              [JStr "Error: Please set HABITICA_USER_ID and HABITICA_API_TOKEN environment variables"];
            ProcessExit 1 ]) as Hrun.
  { unfold run. rewrite startup_exits; [done|].
    destruct Hunset as [H|H]; [left|right]; by apply unset_not_truthy. }
  do 2 eexists. split; [exact Hrun|]. split; [done|]. split; [done|].
  by rewrite Hrun.
Qed.

Lemma startup_without_credentials_exits_witness :
  exists diagnostic exitCode,
    run {[ "HABITICA_USER_ID" := "user-1"; "HABITICA_API_TOKEN" := "" ]} None
      (constClient tagsBody) [("get_tags", JObj [])] =
      [ConsoleError [JStr diagnostic]; ProcessExit exitCode] /\
    diagnostic =
      "Error: Please set HABITICA_USER_ID and HABITICA_API_TOKEN environment variables" /\
    exitCode <> 0 /\
    existsb touchesNetwork
      (run {[ "HABITICA_USER_ID" := "user-1"; "HABITICA_API_TOKEN" := "" ]} None
         (constClient tagsBody) [("get_tags", JObj [])]) = false.
Proof.
  apply startup_without_credentials_exits.
  right. right. by vm_compute.
Defined.

(** With both credentials set the process builds the client, registers its
    two handlers, connects, and serves: the requests of the delivered tool
    calls follow. *)
Example startup_with_credentials_serves :
  run {[ "HABITICA_USER_ID" := "user-1"; "HABITICA_API_TOKEN" := "key-1" ]} None
    (constClient tagsBody) [("get_tags", JObj [])] =
    [ AxiosCreate "https://habitica.com/api/v3"
        [ ("x-api-user", "user-1"); ("x-api-key", "key-1");
          ("x-client", "user-1-MCP-Server"); ("Content-Type", "application/json") ];
      NewServer "habitica-mcp-server" "0.0.1";
      SetRequestHandler ListToolsRequestSchema;
      SetRequestHandler CallToolRequestSchema;
      ServerConnect;
      ConsoleError [JStr "Habitica MCP server started"];
      HttpCall (mkRequest GET "/tags" None) ].
Proof. by vm_compute. Qed.

(* ================================================================== *)
(** * Further properties of the handlers and the dispatcher *)

(** ** The shape of a handler *)

Lemma bind_await_rejected {A : Type} (r : Request) (reason : Thrown)
    (k : JsVal -> Async A) (client : Client) :
  client r = Rejected reason ->
  (await r ≫= k) client = ([r], Throw reason).
Proof.
  intros Hr. unfold mbind, Async_bind, await. by rewrite Hr.
Qed.

Lemma oneRequestShape_intro (h : JsVal -> Async ToolCallResult) :
  (forall args, nullish args = false ->
     exists r k,
       (forall client, h args client = (await r ≫= k) client) /\
       (forall response, silent (k response))) ->
  oneRequestShape h.
Proof.
  intros H args Hargs. destruct (H args Hargs) as (r & k & Heq & Hk).
  by exists r, k.
Qed.

Ltac unfold_handlers :=
  unfold getUserProfile, getTasks, createTask, scoreTask, updateTask, deleteTask,
    getStats, buyReward, getInventory, castSpell, getTags, createTag, getPets,
    feedPet, hatchPet, getMounts, equipItem, getNotifications, readNotification,
    getShop, buyItem, getTaskChecklist, addChecklistItem, updateChecklistItem,
    deleteChecklistItem, scoreChecklistItem,
    habiticaClient.get, habiticaClient.post, habiticaClient.put,
    habiticaClient.delete;
  cbv zeta.

Ltac silent_cases :=
  repeat first
    [ apply silent_ret
    | apply silent_lift
    | apply silent_dot
    | apply silent_bind; [|intros ?]
    | progress cbv zeta
    | match goal with
      | |- silent (match ?x with _ => _ end) => destruct x
      end ].

Ltac read_arguments Hargs :=
  cbv beta;
  repeat rewrite (bind_dot _ _ _ _ _ (getProp_member _ _ Hargs)).

Lemma cases_oneRequestShape : Forall (fun c => oneRequestShape c.2) cases.
Proof.
  unfold cases.
  repeat (apply Forall_cons; split;
          [ apply oneRequestShape_intro; intros args Hargs; simpl snd;
            do 2 eexists; split;
            [ intros client; read_arguments Hargs; unfold_handlers; reflexivity
            | intros response; silent_cases ]
          | ]).
  by apply Forall_nil.
Qed.

Lemma bind_dot_absent {A : Type} (v : JsVal) (k : string)
    (rest : JsVal -> Async A) (client : Client) :
  nullish v = true ->
  (dot v k ≫= rest) client = ([], Throw (cannotRead v k)).
Proof. intros Hv. unfold dot, getProp. by rewrite Hv. Qed.

Lemma cases_absentShape : Forall (fun c => absentShape c.1 c.2) cases.
Proof.
  unfold cases.
  repeat (apply Forall_cons; split;
          [ intros args Hargs; simpl fst; simpl snd;
            first
              [ right; eexists; split;
                [ intros client; cbv beta;
                  rewrite (bind_dot_absent args _ _ client Hargs); reflexivity
                | split_and!; [apply (bool_decide_unpack _); by vm_compute
                              |discriminate|discriminate] ]
              | left; split;
                [ first [left; reflexivity | right; reflexivity]
                | do 2 eexists; split; cycle 1;
                  [ intros client; cbv beta; unfold_handlers; reflexivity
                  | intros response; silent_cases ] ] ]
          | ]).
  by apply Forall_nil.
Qed.

Lemma selectCase_elem {H : Type} (clauses : list (string * H)) (n : string) (h : H) :
  selectCase clauses n = Some h -> (n, h) ∈ clauses.
Proof.
  induction clauses as [|[label h'] rest IH]; simpl; [done|].
  destruct (String.eqb_spec n label) as [->|_].
  - intros [= ->]. apply elem_of_cons. by left.
  - intros Hsel. apply elem_of_cons. right. by apply IH.
Qed.

Lemma registered_handler (n : string) :
  n ∈ toolNames ->
  exists h, selectCase cases n = Some h /\ oneRequestShape h /\ absentShape n h.
Proof.
  intros Hn. destruct (registered_tool_has_handler n Hn) as [h Hsel].
  exists h. split; [done|].
  pose proof (selectCase_elem _ _ _ Hsel) as Hin. split.
  - by apply (proj1 (Forall_forall _ _) cases_oneRequestShape (n, h)).
  - by apply (proj1 (Forall_forall _ _) cases_absentShape (n, h)).
Qed.

Lemma switchBody_selected (n : string) (args : JsVal)
    (h : JsVal -> Async ToolCallResult) :
  selectCase cases n = Some h -> switchBody n args = h args.
Proof. intros Hsel. unfold switchBody. by rewrite Hsel. Qed.

Lemma catchBlock_cannotRead (v : JsVal) (k : string) (client : Client) :
  catchBlock (cannotRead v k) client =
    ([], Throw (internalError ("Cannot read properties of " +:+ toStr v +:+
                               " (reading '" +:+ k +:+ "')"))).
Proof. reflexivity. Qed.

(** ** One request per invocation *)

(** X1.  A registered tool invoked with an argument object whose declared
    arguments have a text sends exactly one request, and which request it
    sends is fixed by the name and the arguments alone: it does not depend on
    what the remote answers, and no argument is checked before it is sent. *)
Theorem one_request_per_invocation (n : string) (args : JsVal) :
  n ∈ toolNames ->
  nullish args = false ->
  printableArguments n args = true ->
  exists r, forall client, (callTool n args client).1 = [r].
Proof.
  intros Hn Hargs _.
  destruct (registered_handler n Hn) as (h & Hsel & Hshape & _).
  destruct (Hshape args Hargs) as (r & k & Hk & Heq).
  exists r. intros client. unfold callTool.
  rewrite tryCatch_requests by apply silent_catchBlock.
  rewrite (switchBody_selected n args h Hsel), Heq.
  by apply await_then_silent.
Qed.

Lemma one_request_per_invocation_witness :
  exists r, forall client, (callTool "delete_task" (JObj []) client).1 = [r].
Proof.
  apply (one_request_per_invocation "delete_task" (JObj [])).
  - apply (bool_decide_unpack _). by vm_compute.
  - reflexivity.
  - reflexivity.
Defined.

(** X2.  When the request a registered tool sends is rejected, the handler
    recovers nothing: an [McpError] comes out as it is, and any other failure
    whose chosen message has a text comes out as the internal error built
    with that text, in both cases after that one request.  The declared
    arguments are taken to have a text. *)
Theorem rejection_reaches_the_caller (n : string) (args : JsVal) :
  n ∈ toolNames ->
  nullish args = false ->
  printableArguments n args = true ->
  exists r, forall client,
    (forall e, client r = Rejected (ThrownMcp e) ->
       callTool n args client = ([r], Throw (ThrownMcp e))) /\
    (forall err, client r = Rejected (ThrownJs err) -> nullish err = false ->
       printable (chosenMessage err) = true ->
       callTool n args client =
         ([r], Throw (internalError (toStr (chosenMessage err))))).
Proof.
  intros Hn Hargs _.
  destruct (registered_handler n Hn) as (h & Hsel & Hshape & _).
  destruct (Hshape args Hargs) as (r & k & Hk & Heq).
  exists r. intros client. split.
  - intros e Hrej. unfold callTool.
    apply tryCatch_rethrow with (e := ThrownMcp e); [|done].
    rewrite (switchBody_selected n args h Hsel), Heq.
    by apply bind_await_rejected.
  - intros err Hrej Herr _. unfold callTool.
    apply tryCatch_rethrow with (e := ThrownJs err).
    + rewrite (switchBody_selected n args h Hsel), Heq.
      by apply bind_await_rejected.
    + by apply catchBlock_wraps.
Qed.

Lemma rejection_reaches_the_caller_witness :
  exists r, forall client,
    (forall e, client r = Rejected (ThrownMcp e) ->
       callTool "buy_reward" (JObj [("key", JStr "potion")]) client =
         ([r], Throw (ThrownMcp e))) /\
    (forall err, client r = Rejected (ThrownJs err) -> nullish err = false ->
       printable (chosenMessage err) = true ->
       callTool "buy_reward" (JObj [("key", JStr "potion")]) client =
         ([r], Throw (internalError (toStr (chosenMessage err))))).
Proof.
  apply (rejection_reaches_the_caller "buy_reward" (JObj [("key", JStr "potion")])).
  - apply (bool_decide_unpack _). by vm_compute.
  - reflexivity.
  - reflexivity.
Defined.

(** ** An absent argument object *)



(** X4.  The tools that declare no argument never read [arguments], and
    [create_task] passes it on unread: with [arguments] absent they send
    their one request all the same. *)
Theorem parameterless_tools_ignore_absent_arguments (n : string) (args : JsVal) :
  n ∈ toolNames ->
  nullish args = true ->
  argumentsOf n = [] \/ n = "create_task" ->
  exists r, forall client, (callTool n args client).1 = [r].
Proof.
  intros Hn Hargs Hfree.
  destruct (registered_handler n Hn) as (h & Hsel & _ & Habsent).
  destruct (Habsent args Hargs)
    as [[_ (r & k & Hk & Heq)] | (key & _ & _ & Hdecl & Hcreate)].
  - exists r. intros client. unfold callTool.
    rewrite tryCatch_requests by apply silent_catchBlock.
    rewrite (switchBody_selected n args h Hsel), Heq.
    by apply await_then_silent.
  - by destruct Hfree.
Qed.

Lemma parameterless_tools_ignore_absent_arguments_witness :
  exists r, forall client, (callTool "get_stats" JUndefined client).1 = [r].
Proof.
  apply (parameterless_tools_ignore_absent_arguments "get_stats" JUndefined).
  - apply (bool_decide_unpack _). by vm_compute.
  - reflexivity.
  - left. reflexivity.
Defined.

(** ** The errors a caller can see *)













(** ** What a handler reads of its arguments *)

Lemma cases_read_declared_arguments :
  Forall (fun c =>
            c.1 ∈ forwardsArguments \/
            forall args args',
              nullish args = false -> nullish args' = false ->
              (forall k, k ∈ argumentsOf c.1 -> member args k = member args' k) ->
              forall client, c.2 args client = c.2 args' client) cases.
Proof.
  unfold cases.
  repeat (apply Forall_cons; split;
          [ simpl fst; simpl snd;
            first
              [ left; apply (bool_decide_unpack _); by vm_compute
              | right; intros args args' Hargs Hargs' Hagree client;
                read_arguments Hargs; read_arguments Hargs';
                repeat match goal with
                       | |- context [member args ?k] =>
                           rewrite (Hagree k)
                             by (apply (bool_decide_unpack _); by vm_compute)
                       end;
                reflexivity ]
          | ]).
  by apply Forall_nil.
Qed.

(** X6.  A tool other than [create_task], [update_task] and
    [update_checklist_item] reads the arguments its schema declares and
    nothing else: two argument objects that agree on the declared names get
    the same requests and the same outcome.  Undeclared arguments are
    ignored. *)
Theorem undeclared_arguments_are_ignored (n : string) (args args' : JsVal)
    (client : Client) :
  n ∈ toolNames ->
  n ∉ forwardsArguments ->
  nullish args = false ->
  nullish args' = false ->
  (forall k, k ∈ argumentsOf n -> member args k = member args' k) ->
  callTool n args client = callTool n args' client.
Proof.
  intros Hn Hfwd Hargs Hargs' Hagree.
  destruct (registered_handler n Hn) as (h & Hsel & _ & _).
  pose proof (selectCase_elem _ _ _ Hsel) as Hin.
  destruct (proj1 (Forall_forall _ _) cases_read_declared_arguments (n, h) Hin)
    as [Hforwards | Hsame]; [done|].
  unfold callTool, tryCatch.
  rewrite !(switchBody_selected n _ h Hsel).
  simpl in Hsame. by rewrite (Hsame args args' Hargs Hargs' Hagree client).
Qed.

Lemma undeclared_arguments_are_ignored_witness :
  callTool "delete_task" (JObj [("taskId", JStr "t1"); ("force", JBool true)])
    (constClient JNull)
  = callTool "delete_task" (JObj [("taskId", JStr "t1")]) (constClient JNull).
Proof.
  apply undeclared_arguments_are_ignored.
  - apply (bool_decide_unpack _). by vm_compute.
  - apply (bool_decide_unpack _). by vm_compute.
  - reflexivity.
  - reflexivity.
  - intros k Hk. change (k ∈ ["taskId"]) in Hk.
    apply list_elem_of_singleton in Hk as ->. reflexivity.
Defined.

(** X7.  [create_task], [update_task] and [update_checklist_item] send the
    argument object itself as the request body, whatever it holds: nothing is
    filtered, and the identifiers that went into the path (which must have a
    text) travel in the body as well. *)
Theorem argument_object_is_the_request_body (args : JsVal) (client : Client) :
  nullish args = false ->
  (callTool "create_task" args client).1 =
    [mkRequest POST "/tasks/user" (Some args)] /\
  (printable (member args "taskId") = true ->
   (callTool "update_task" args client).1 =
     [mkRequest PUT ("/tasks/" +:+ toStr (member args "taskId")) (Some args)]) /\
  (printable (member args "taskId") = true ->
   printable (member args "itemId") = true ->
   (callTool "update_checklist_item" args client).1 =
     [mkRequest PUT ("/tasks/" +:+ toStr (member args "taskId") +:+ "/checklist/" +:+
                     toStr (member args "itemId")) (Some args)]).
Proof.
  intros Hargs. split_and!; intros; unfold callTool;
    rewrite tryCatch_requests by apply silent_catchBlock;
    [ rewrite (switchBody_selected "create_task" args _ eq_refl)
    | rewrite (switchBody_selected "update_task" args _ eq_refl)
    | rewrite (switchBody_selected "update_checklist_item" args _ eq_refl) ];
    read_arguments Hargs; unfold_handlers;
    apply await_then_silent; intros response; silent_cases.
Qed.

Lemma argument_object_is_the_request_body_witness :
  (callTool "create_task" (JObj [("taskId", JStr "t1"); ("text", JStr "Buy milk")])
     (constClient JNull)).1 =
    [mkRequest POST "/tasks/user"
       (Some (JObj [("taskId", JStr "t1"); ("text", JStr "Buy milk")]))] /\
  (callTool "update_task" (JObj [("taskId", JStr "t1"); ("text", JStr "Buy milk")])
     (constClient JNull)).1 =
    [mkRequest PUT "/tasks/t1"
       (Some (JObj [("taskId", JStr "t1"); ("text", JStr "Buy milk")]))].
Proof.
  destruct (argument_object_is_the_request_body
              (JObj [("taskId", JStr "t1"); ("text", JStr "Buy milk")])
              (constClient JNull) eq_refl) as (Hcreate & Hupdate & _).
  split; [exact Hcreate | exact (Hupdate eq_refl)].
Defined.

(** ** Handlers that do not read the response *)

Ltac select_case args :=
  match goal with
  | |- context [switchBody ?n args] =>
      rewrite (switchBody_selected n args _ eq_refl)
  end.

(** X8.  [delete_task], [cast_spell], [equip_item], [read_notification] and
    [delete_checklist_item] report success as soon as their request resolves:
    the confirmation is fixed by the arguments (which are taken to have a
    text), and nothing of the response, not even its body, is read. *)
Theorem confirmation_ignores_the_response (n : string) (args : JsVal) :
  n ∈ ignoresResponse ->
  nullish args = false ->
  printableArguments n args = true ->
  exists r confirmation,
    forall client response,
      client r = Resolved response ->
      callTool n args client = ([r], Return (mkResult [textBlock confirmation])).
Proof.
  intros Hn Hargs _. unfold ignoresResponse in Hn.
  repeat (apply elem_of_cons in Hn as [-> | Hn]);
    [ | | | | | by apply elem_of_nil in Hn ];
    do 2 eexists; intros client response Hclient;
    unfold callTool; apply tryCatch_return; select_case args;
    read_arguments Hargs; unfold_handlers;
    rewrite (bind_await _ response) by exact Hclient; reflexivity.
Qed.

Lemma confirmation_ignores_the_response_witness :
  exists r confirmation,
    forall client response,
      client r = Resolved response ->
      callTool "equip_item" (JObj [("type", JStr "pet"); ("key", JStr "Wolf-Base")])
        client = ([r], Return (mkResult [textBlock confirmation])).
Proof.
  apply (confirmation_ignores_the_response "equip_item").
  - apply (bool_decide_unpack _). by vm_compute.
  - reflexivity.
  - reflexivity.
Defined.

(** ** Defaults and optional arguments *)

(** X9.  [buy_item] without a [quantity] buys one: the request body is
    [{quantity: 1}] and the confirmation says [x1], which is the default the
    schema declares.  Any other [quantity], [null] included, is sent as it
    is.  The item key, and the remaining gold the confirmation quotes, are
    taken to have a text. *)
Theorem buy_item_quantity_defaults_to_one (args : JsVal) (client : Client) :
  nullish args = false ->
  printable (member args "itemKey") = true ->
  (member args "quantity" = JUndefined ->
   (callTool "buy_item" args client).1 =
     [mkRequest POST ("/user/buy/" +:+ toStr (member args "itemKey"))
        (Some (JObj [("quantity", JNum 1)]))] /\
   forall result,
     answersData client
       (mkRequest POST ("/user/buy/" +:+ toStr (member args "itemKey"))
          (Some (JObj [("quantity", JNum 1)]))) result ->
     nullish result = false ->
     printable (member result "gp") = true ->
     (callTool "buy_item" args client).2 =
       Return (mkResult [textBlock
         ("Successfully bought " +:+ toStr (member args "itemKey") +:+
          " x1! Remaining gold: " +:+ toStr (member result "gp"))])) /\
  (member args "quantity" <> JUndefined ->
   (callTool "buy_item" args client).1 =
     [mkRequest POST ("/user/buy/" +:+ toStr (member args "itemKey"))
        (Some (JObj [("quantity", member args "quantity")]))]) /\
  (exists td props,
     findTool "buy_item" = Some td /\
     argumentSchema td "quantity" = JObj props /\
     ownProp props "default" = Some (JNum 1)).
Proof.
  intros Hargs _.
  assert ((callTool "buy_item" args client).1 =
          [mkRequest POST ("/user/buy/" +:+ toStr (member args "itemKey"))
             (Some (JObj [("quantity", orDefault (member args "quantity") (JNum 1))]))])
    as Hlog.
  { unfold callTool. rewrite tryCatch_requests by apply silent_catchBlock.
    select_case args. read_arguments Hargs. unfold_handlers.
    apply await_then_silent. intros response. silent_cases. }
  split_and!.
  - intros Hq. rewrite Hq in Hlog. split; [exact Hlog|].
    intros result (body & (response & Hclient & Hbody) & Hresult) Hnn _.
    assert (callTool "buy_item" args client =
            ([mkRequest POST ("/user/buy/" +:+ toStr (member args "itemKey"))
                (Some (JObj [("quantity", JNum 1)]))],
             Return (mkResult [textBlock
               ("Successfully bought " +:+ toStr (member args "itemKey") +:+
                " x1! Remaining gold: " +:+ toStr (member result "gp"))]))) as ->;
      [|done].
    unfold callTool. apply tryCatch_return. select_case args.
    read_arguments Hargs. unfold_handlers. rewrite Hq. simpl orDefault.
    rewrite (bind_await _ response) by exact Hclient.
    rewrite (bind_dot response "data" body) by exact Hbody.
    rewrite (bind_dot body "data" result) by exact Hresult.
    rewrite (bind_dot result "gp" _ _ _ (getProp_member result _ Hnn)).
    reflexivity.
  - intros Hq. rewrite Hlog. by destruct (member args "quantity").
  - do 2 eexists. split_and!; reflexivity.
Qed.

Lemma buy_item_quantity_defaults_to_one_witness :
  (callTool "buy_item" (JObj [("itemKey", JStr "armor_warrior_1")])
     (constClient (JObj [("data", JObj [("gp", JNum 40)])]))).2 =
    Return (mkResult [textBlock
      "Successfully bought armor_warrior_1 x1! Remaining gold: 40"]).
Proof.
  pose (args := JObj [("itemKey", JStr "armor_warrior_1")]).
  pose (result := JObj [("gp", JNum 40)]).
  destruct (buy_item_quantity_defaults_to_one args
              (constClient (JObj [("data", result)])) eq_refl eq_refl)
    as (Hdefault & _ & _).
  destruct (Hdefault eq_refl) as (_ & Htext).
  apply (Htext result); [|reflexivity|reflexivity].
  exists (JObj [("data", result)]). split; [|reflexivity].
  exists (JObj [("data", JObj [("data", result)])]). split; reflexivity.
Defined.

(** X10.  [get_shop] without a [shopType] asks for the market, a default the
    schema does not declare (it lists [market] among the allowed values);
    the result is the pretty-printed text of the whole response body. *)
Theorem get_shop_defaults_to_market (args : JsVal) (client : Client) :
  nullish args = false ->
  member args "shopType" = JUndefined ->
  (callTool "get_shop" args client).1 = [mkRequest GET "/shops/market" None] /\
  (forall body,
     answersBody client (mkRequest GET "/shops/market" None) body ->
     (callTool "get_shop" args client).2 =
       Return (mkResult [mkBlock "text" (JSON_stringify body)])) /\
  (exists td props allowed,
     findTool "get_shop" = Some td /\
     argumentSchema td "shopType" = JObj props /\
     ownProp props "default" = None /\
     ownProp props "enum" = Some (JArr allowed) /\
     JStr "market" ∈ allowed).
Proof.
  intros Hargs Hshop. split_and!.
  - unfold callTool. rewrite tryCatch_requests by apply silent_catchBlock.
    select_case args. read_arguments Hargs. rewrite Hshop. unfold_handlers.
    apply await_then_silent. intros response. silent_cases.
  - intros body (response & Hclient & Hbody).
    assert (callTool "get_shop" args client =
            ([mkRequest GET "/shops/market" None],
             Return (mkResult [mkBlock "text" (JSON_stringify body)]))) as ->;
      [|done].
    unfold callTool. apply tryCatch_return. select_case args.
    read_arguments Hargs. rewrite Hshop. unfold_handlers. simpl orDefault.
    rewrite (bind_await _ response) by exact Hclient.
    by rewrite (bind_dot response "data" body) by exact Hbody.
  - do 3 eexists. split_and!; try reflexivity.
    apply elem_of_cons. by left.
Qed.

Lemma get_shop_defaults_to_market_witness :
  (callTool "get_shop" (JObj []) (constClient JNull)).1 =
    [mkRequest GET "/shops/market" None].
Proof.
  apply (get_shop_defaults_to_market (JObj []) (constClient JNull)); reflexivity.
Defined.

(** X11.  An optional argument that is absent, [null], empty or otherwise
    falsy adds nothing to the path: [get_tasks] with such a [type] and
    [cast_spell] with such a [targetId] behave as without the argument.  A
    truthy one that has a text is appended as a query string, as its text. *)
Theorem falsy_optional_argument_is_no_argument (args : JsVal) (client : Client) :
  nullish args = false ->
  (truthy (member args "type") = false ->
   callTool "get_tasks" args client = callTool "get_tasks" (JObj []) client) /\
  (truthy (member args "type") = true ->
   printable (member args "type") = true ->
   (callTool "get_tasks" args client).1 =
     [mkRequest GET ("/tasks/user?type=" +:+ toStr (member args "type")) None]) /\
  (truthy (member args "targetId") = false ->
   callTool "cast_spell" args client =
     callTool "cast_spell" (JObj [("spellId", member args "spellId")]) client) /\
  (truthy (member args "targetId") = true ->
   printable (member args "spellId") = true ->
   printable (member args "targetId") = true ->
   (callTool "cast_spell" args client).1 =
     [mkRequest POST ("/user/class/cast/" +:+ toStr (member args "spellId") +:+
                      "?targetId=" +:+ toStr (member args "targetId")) None]).
Proof.
  intros Hargs. split_and!; intros Htruthy; intros.
  - unfold callTool, tryCatch.
    rewrite (switchBody_selected "get_tasks" args _ eq_refl).
    rewrite (switchBody_selected "get_tasks" (JObj []) _ eq_refl).
    read_arguments Hargs.
    rewrite (bind_dot (JObj []) "type" JUndefined) by reflexivity.
    unfold getTasks. by rewrite Htruthy.
  - unfold callTool. rewrite tryCatch_requests by apply silent_catchBlock.
    select_case args. read_arguments Hargs. unfold_handlers. rewrite Htruthy.
    apply await_then_silent. intros response. silent_cases.
  - unfold callTool, tryCatch.
    rewrite (switchBody_selected "cast_spell" args _ eq_refl).
    rewrite (switchBody_selected "cast_spell" (JObj _) _ eq_refl).
    read_arguments Hargs.
    rewrite (bind_dot (JObj _) "spellId" (member args "spellId")) by reflexivity.
    rewrite (bind_dot (JObj _) "targetId" JUndefined) by reflexivity.
    unfold castSpell. by rewrite Htruthy.
  - unfold callTool. rewrite tryCatch_requests by apply silent_catchBlock.
    select_case args. read_arguments Hargs. unfold_handlers. rewrite Htruthy.
    apply await_then_silent. intros response. silent_cases.
Qed.

Lemma falsy_optional_argument_is_no_argument_witness :
  callTool "get_tasks" (JObj [("type", JStr "")]) (constClient (JArr [])) =
  callTool "get_tasks" (JObj []) (constClient (JArr [])).
Proof.
  apply (falsy_optional_argument_is_no_argument (JObj [("type", JStr "")])
           (constClient (JArr [])) eq_refl).
  reflexivity.
Defined.

(** ** The five views of the user *)

Ltac read_response response body Hclient Hbody :=
  rewrite (bind_await _ response) by exact Hclient;
  rewrite (bind_dot response "data" body) by exact Hbody.

(** X12.  [get_user_profile], [get_stats], [get_inventory], [get_pets] and
    [get_mounts] send the same request, [GET /user], and print parts of the
    same object: the user, its [stats], its [items], and the [pets] and
    [mounts] of its items.  A part that is absent is printed as no text at
    all ([undefined]), not as an error. *)
Theorem user_views_project_the_user (args : JsVal) (client : Client) (user : JsVal) :
  answersData client userRequest user ->
  callTool "get_user_profile" args client =
    ([userRequest], Return (mkResult [mkBlock "text" (JSON_stringify user)])) /\
  (nullish user = false ->
   callTool "get_stats" args client =
     ([userRequest],
      Return (mkResult [mkBlock "text" (JSON_stringify (member user "stats"))])) /\
   callTool "get_inventory" args client =
     ([userRequest],
      Return (mkResult [mkBlock "text" (JSON_stringify (member user "items"))])) /\
   (nullish (member user "items") = false ->
    callTool "get_pets" args client =
      ([userRequest],
       Return (mkResult [mkBlock "text"
                 (JSON_stringify (member (member user "items") "pets"))])) /\
    callTool "get_mounts" args client =
      ([userRequest],
       Return (mkResult [mkBlock "text"
                 (JSON_stringify (member (member user "items") "mounts"))]))) /\
   (member user "stats" = JUndefined ->
    callTool "get_stats" args client =
      ([userRequest], Return (mkResult [mkBlock "text" JUndefined])))).
Proof.
  intros (body & (response & Hclient & Hbody) & Huser).
  assert (forall n h, selectCase cases n = Some (fun _ => h) ->
            forall o, h client = ([userRequest], Return o) ->
            callTool n args client = ([userRequest], Return o)) as Hcall.
  { intros n h Hsel o Hh. unfold callTool. apply tryCatch_return.
    by rewrite (switchBody_selected n args _ Hsel). }
  split.
  - apply (Hcall "get_user_profile" getUserProfile eq_refl). unfold getUserProfile, habiticaClient.get.
    read_response response body Hclient Hbody.
    by rewrite (bind_dot body "data" user) by exact Huser.
  - intros Hnn.
    assert (callTool "get_stats" args client =
            ([userRequest],
             Return (mkResult [mkBlock "text" (JSON_stringify (member user "stats"))])))
      as Hstats.
    { apply (Hcall "get_stats" getStats eq_refl). unfold getStats, habiticaClient.get.
      read_response response body Hclient Hbody.
      rewrite (bind_dot body "data" user) by exact Huser.
      by rewrite (bind_dot user "stats" _ _ _ (getProp_member user _ Hnn)). }
    split_and!.
    + exact Hstats.
    + apply (Hcall "get_inventory" getInventory eq_refl). unfold getInventory, habiticaClient.get.
      read_response response body Hclient Hbody.
      rewrite (bind_dot body "data" user) by exact Huser.
      by rewrite (bind_dot user "items" _ _ _ (getProp_member user _ Hnn)).
    + intros Hitems. split.
      * apply (Hcall "get_pets" getPets eq_refl). unfold getPets, habiticaClient.get.
        read_response response body Hclient Hbody.
        rewrite (bind_dot body "data" user) by exact Huser.
        rewrite (bind_dot user "items" _ _ _ (getProp_member user _ Hnn)).
        by rewrite (bind_dot _ "pets" _ _ _ (getProp_member _ _ Hitems)).
      * apply (Hcall "get_mounts" getMounts eq_refl). unfold getMounts, habiticaClient.get.
        read_response response body Hclient Hbody.
        rewrite (bind_dot body "data" user) by exact Huser.
        rewrite (bind_dot user "items" _ _ _ (getProp_member user _ Hnn)).
        by rewrite (bind_dot _ "mounts" _ _ _ (getProp_member _ _ Hitems)).
    + intros Habsent. by rewrite Hstats, Habsent.
Qed.

Lemma user_views_project_the_user_witness :
  callTool "get_user_profile" JUndefined
    (constClient (JObj [("data", JObj [("stats", JObj [("lvl", JNum 7)])])])) =
    ([userRequest],
     Return (mkResult [mkBlock "text"
               (JSON_stringify (JObj [("stats", JObj [("lvl", JNum 7)])]))])).
Proof.
  apply (user_views_project_the_user JUndefined
           (constClient (JObj [("data", JObj [("stats", JObj [("lvl", JNum 7)])])]))
           (JObj [("stats", JObj [("lvl", JNum 7)])])).
  exists (JObj [("data", JObj [("stats", JObj [("lvl", JNum 7)])])]).
  split; [|reflexivity].
  eexists. split; reflexivity.
Defined.



(** ** Results the remote leaves out *)

(** X14.  A tool whose confirmation quotes the remote result fails when the
    response body has no [data]: the request has been sent, and the caller
    gets the internal error of reading a field of [undefined] (or [null]),
    not a confirmation.  The declared arguments are taken to have a text. *)
Theorem confirmation_needs_the_result (n : string) (args : JsVal) :
  n ∈ quotesResult ->
  nullish args = false ->
  printableArguments n args = true ->
  exists r field,
    forall client response body,
      client r = Resolved response ->
      getProp response "data" = Return body ->
      nullish body = false ->
      nullish (member body "data") = true ->
      callTool n args client =
        ([r], Throw (internalError
                       ("Cannot read properties of " +:+ toStr (member body "data") +:+
                        " (reading '" +:+ field +:+ "')"))).
Proof.
  intros Hn Hargs _. unfold quotesResult in Hn.
  repeat (apply elem_of_cons in Hn as [-> | Hn]);
    [ | | | | | | | | | | by apply elem_of_nil in Hn ];
    do 2 eexists; intros client response body Hclient Hbody Hnn Hdata;
    unfold callTool;
    (eapply tryCatch_rethrow;
     [ select_case args; read_arguments Hargs; unfold_handlers;
       read_response response body Hclient Hbody;
       rewrite (bind_dot body "data" _ _ _ (getProp_member body _ Hnn));
       rewrite (bind_dot_absent (member body "data") _ _ client Hdata);
       reflexivity
     | apply catchBlock_cannotRead ]).
Qed.

Lemma confirmation_needs_the_result_witness :
  exists r field,
    forall client response body,
      client r = Resolved response ->
      getProp response "data" = Return body ->
      nullish body = false ->
      nullish (member body "data") = true ->
      callTool "create_tag" (JObj [("name", JStr "Health")]) client =
        ([r], Throw (internalError
                       ("Cannot read properties of " +:+ toStr (member body "data") +:+
                        " (reading '" +:+ field +:+ "')"))).
Proof.
  apply (confirmation_needs_the_result "create_tag").
  - apply (bool_decide_unpack _). by vm_compute.
  - reflexivity.
  - reflexivity.
Defined.




(** ** The life of the process *)

Lemma served_calls_never_exit (client : Client) (incoming : list (string * JsVal)) :
  existsb isExit
    (flat_map (fun call => map HttpCall (callTool call.1 call.2 client).1) incoming)
  = false.
Proof.
  induction incoming as [|call incoming IH]; simpl; [done|].
  rewrite existsb_app, IH, orb_false_r.
  by induction (callTool call.1 call.2 client).1.
Qed.

Lemma envTruthy_Some (x : option string) :
  envTruthy x = true -> exists v, x = Some v /\ v <> "".
Proof.
  destruct x as [v|]; simpl; [|done].
  destruct (String.eqb_spec v ""); [done|]. by exists v.
Qed.

(** X16.  The process exits in two situations only, a missing credential or
    a failure to connect, and then with code 1, as its last effect and
    before any request of a tool call.  With both credentials set, the first
    effect is the construction of the client, whose headers carry the user
    identifier, the token, and the identifier followed by [-MCP-Server]. *)
Theorem process_exits_only_at_startup (env : gmap string string)
    (connectFailure : option JsVal) (client : Client)
    (incoming : list (string * JsVal)) :
  (existsb isExit (run env connectFailure client incoming) = true <->
   envTruthy (env !! "HABITICA_USER_ID") = false \/
   envTruthy (env !! "HABITICA_API_TOKEN") = false \/
   connectFailure <> None) /\
  (existsb isExit (run env connectFailure client incoming) = true ->
   exists before,
     run env connectFailure client incoming = before ++ [ProcessExit 1] /\
     Forall (fun e => isExit e = false /\ forall r, e <> HttpCall r) before) /\
  (envTruthy (env !! "HABITICA_USER_ID") = true ->
   envTruthy (env !! "HABITICA_API_TOKEN") = true ->
   exists user token rest,
     env !! "HABITICA_USER_ID" = Some user /\
     env !! "HABITICA_API_TOKEN" = Some token /\
     run env connectFailure client incoming =
       AxiosCreate "https://habitica.com/api/v3"
         [ ("x-api-user", user); ("x-api-key", token);
           ("x-client", user +:+ "-MCP-Server");
           ("Content-Type", "application/json") ] :: rest).
Proof.
  unfold run, startup. cbv zeta. simpl snd.
  destruct (envTruthy (env !! "HABITICA_USER_ID")) eqn:Huser;
    [destruct (envTruthy (env !! "HABITICA_API_TOKEN")) eqn:Htoken|]; simpl.
  - destruct connectFailure as [error|]; simpl.
    + split_and!.
      * split; [intros _; right; right; done | done].
      * intros _. eexists [_; _; _; _; _; _]. split; [reflexivity|].
        repeat constructor; done.
      * intros _ _. apply envTruthy_Some in Huser as (user & -> & _).
        apply envTruthy_Some in Htoken as (token & -> & _).
        by do 3 eexists.
    + rewrite served_calls_never_exit. split_and!.
      * split; [done|]. by intros [|[|]].
      * done.
      * intros _ _. apply envTruthy_Some in Huser as (user & -> & _).
        apply envTruthy_Some in Htoken as (token & -> & _).
        by do 3 eexists.
  - split_and!.
    + split; [intros _; right; left; done | done].
    + intros _. eexists [_]. split; [reflexivity|]. repeat constructor; done.
    + done.
  - split_and!.
    + split; [intros _; left; done | done].
    + intros _. eexists [_]. split; [reflexivity|]. repeat constructor; done.
    + done.
Qed.

(** ** The language *)

Lemma lowerAscii_idempotent (c : ascii) : lowerAscii (lowerAscii c) = lowerAscii c.
Proof. by destruct c as [[] [] [] [] [] [] [] []]. Qed.

Lemma toLowerCase_idempotent (s : string) :
  toLowerCase (toLowerCase s) = toLowerCase s.
Proof.
  induction s as [|c s IH]; simpl; [done|].
  by rewrite lowerAscii_idempotent, IH.
Qed.

Lemma toLowerCase_not_empty (s : string) : s <> "" -> toLowerCase s <> "".
Proof. by destruct s. Qed.

Lemma envOr_truthy (a b : option string) :
  envTruthy b = true -> envTruthy (envOr a b) = true.
Proof. intros Hb. unfold envOr. by destruct (envTruthy a) eqn:Ha. Qed.

Lemma envTruthy_nonempty (v : string) : v <> "" -> envTruthy (Some v) = true.
Proof. intros Hv. simpl. by destruct (String.eqb_spec v ""). Qed.

(** X17.  With [MCP_LANG] and [LANG] holding ASCII text (when they are set),
    start-up always leaves a language in [i18n.js] that is not empty and is
    in lower case: that of [MCP_LANG] when it is set and not empty, else that
    of [LANG] when it is set and not empty, else [en]; the credentials and
    the connection have no part in it. *)
Theorem startup_sets_a_lower_case_language (env : gmap string string)
    (connectFailure : option JsVal) :
  (forall v, env !! "MCP_LANG" = Some v -> asciiOnly v = true) ->
  (forall v, env !! "LANG" = Some v -> asciiOnly v = true) ->
  getLanguage (startup env connectFailure).1 <> "" /\
  toLowerCase (getLanguage (startup env connectFailure).1) =
    getLanguage (startup env connectFailure).1 /\
  (forall v, env !! "MCP_LANG" = Some v -> v <> "" ->
     getLanguage (startup env connectFailure).1 = toLowerCase v) /\
  (envTruthy (env !! "MCP_LANG") = false ->
   forall v, env !! "LANG" = Some v -> v <> "" ->
     getLanguage (startup env connectFailure).1 = toLowerCase v) /\
  (envTruthy (env !! "MCP_LANG") = false ->
   envTruthy (env !! "LANG") = false ->
   getLanguage (startup env connectFailure).1 = "en").
Proof.
  intros _ _. unfold startup, getLanguage, setLanguage. cbv zeta. simpl.
  split_and!.
  - apply toLowerCase_not_empty.
    pose proof (envOr_truthy (envOr (env !! "MCP_LANG") (env !! "LANG")) (Some "en")
                  eq_refl) as Htruthy.
    destruct (envOr _ (Some "en")) as [v|]; [|done]. simpl in *.
    intros ->. discriminate Htruthy.
  - apply toLowerCase_idempotent.
  - intros v Hv Hne. rewrite Hv. unfold envOr.
    repeat (rewrite (envTruthy_nonempty v Hne); cbv iota). done.
  - intros Hmcp v Hv Hne. unfold envOr. rewrite Hmcp, Hv. cbv iota.
    rewrite (envTruthy_nonempty v Hne). done.
  - intros Hmcp Hlang. unfold envOr. by rewrite Hmcp, Hlang.
Qed.

Lemma startup_sets_a_lower_case_language_witness :
  getLanguage
    (startup {[ "LANG" := "en_US.UTF-8"; "HABITICA_USER_ID" := "user-1" ]} None).1
  = "en_us.utf-8".
Proof.
  destruct (startup_sets_a_lower_case_language
              {[ "LANG" := "en_US.UTF-8"; "HABITICA_USER_ID" := "user-1" ]} None)
    as (_ & _ & _ & Hlang & _).
  - intros v Hv. by vm_compute in Hv.
  - intros v Hv. vm_compute in Hv. injection Hv as <-. reflexivity.
  - apply (Hlang eq_refl "en_US.UTF-8"); [reflexivity | discriminate].
Defined.

(** ** The registry as data *)

(** X18.  The registry is well formed: it holds 26 descriptors with distinct
    names and non-empty descriptions; every input schema is of type
    [object], with its arguments under [properties], each declared once; and
    every name under [required] is a declared argument. *)
Theorem registry_is_well_formed :
  List.length listTools = 26%nat /\
  NoDup (map name listTools) /\
  Forall (fun td =>
            description td <> "" /\
            member (inputSchema td) "type" = JStr "object" /\
            (exists props, member (inputSchema td) "properties" = JObj props) /\
            NoDup (declaredArguments td) /\
            Forall (fun k => k ∈ declaredArguments td) (requiredArguments td))
    listTools.
Proof.
  split; [reflexivity|]. split; [apply toolNames_NoDup|].
  unfold listTools, tools.
  repeat (apply Forall_cons; split;
          [ split_and!;
            [ discriminate
            | reflexivity
            | eexists; reflexivity
            | apply (bool_decide_unpack _); by vm_compute
            | apply (bool_decide_unpack _); by vm_compute ]
          | ]).
  by apply Forall_nil.
Qed.

(** ** Two more edges of the boundary *)

(** X19.  [hatch_pet] names the pet after its two arguments (which are taken
    to have a text) and quotes nothing of the response, yet it reads the
    [data] of the response body: with a body it confirms whatever the body
    holds, and with a body that is [null] or [undefined] it fails with the
    internal error of that read. *)
Theorem hatch_pet_reads_but_does_not_quote (args : JsVal) (client : Client)
    (body : JsVal) :
  nullish args = false ->
  printable (member args "egg") = true ->
  printable (member args "hatchingPotion") = true ->
  answersBody client
    (mkRequest POST ("/user/hatch/" +:+ toStr (member args "egg") +:+ "/" +:+
                     toStr (member args "hatchingPotion")) None) body ->
  (nullish body = false ->
   callTool "hatch_pet" args client =
     ([mkRequest POST ("/user/hatch/" +:+ toStr (member args "egg") +:+ "/" +:+
                       toStr (member args "hatchingPotion")) None],
      Return (mkResult [textBlock
        ("Successfully hatched pet! Got " +:+ toStr (member args "egg") +:+ "-" +:+
         toStr (member args "hatchingPotion"))]))) /\
  (nullish body = true ->
   callTool "hatch_pet" args client =
     ([mkRequest POST ("/user/hatch/" +:+ toStr (member args "egg") +:+ "/" +:+
                       toStr (member args "hatchingPotion")) None],
      Throw (internalError ("Cannot read properties of " +:+ toStr body +:+
                            " (reading 'data')")))).
Proof.
  intros Hargs _ _ (response & Hclient & Hbody). split; intros Hnn.
  - unfold callTool. apply tryCatch_return. select_case args.
    read_arguments Hargs. unfold_handlers.
    read_response response body Hclient Hbody.
    by rewrite (bind_dot body "data" _ _ _ (getProp_member body _ Hnn)).
  - unfold callTool.
    apply tryCatch_rethrow with (e := cannotRead body "data");
      [|apply catchBlock_cannotRead].
    select_case args. read_arguments Hargs. unfold_handlers.
    read_response response body Hclient Hbody.
    by rewrite (bind_dot_absent body "data" _ client Hnn).
Qed.

Lemma hatch_pet_reads_but_does_not_quote_witness :
  callTool "hatch_pet"
    (JObj [("egg", JStr "Wolf"); ("hatchingPotion", JStr "Base")])
    (constClient (JObj [("success", JBool false)])) =
    ([mkRequest POST "/user/hatch/Wolf/Base" None],
     Return (mkResult [textBlock "Successfully hatched pet! Got Wolf-Base"])).
Proof.
  apply (hatch_pet_reads_but_does_not_quote
           (JObj [("egg", JStr "Wolf"); ("hatchingPotion", JStr "Base")])
           (constClient (JObj [("success", JBool false)]))
           (JObj [("success", JBool false)])); try reflexivity.
  eexists. split; reflexivity.
Defined.


